(** * The Mav flight controller (src/mav.py)

    A shallow embedding of the [Mav] class: the arm/offboard/land state
    machine driven by vehicle-state updates, the distance-limited setpoint
    generator and the arrival predicate, followed by the properties the
    specification states about them.

    Conventions.
    - ROS time is a count of nanoseconds ([rospy.Time] and [rospy.Duration]
      compare and subtract as such), held in [Z].
    - Python numbers are read through the interface [PyNum].  Two readings
      are given: [binary64], the IEEE 754 doubles the interpreter really
      uses (NaN, infinities, rounding), and [R], exact arithmetic, in which
      the geometric statements of the specification are phrased.
    - The outside world (the ROS clock, the mavros services, the setpoint
      topic, the console) is an explicit [World] threaded through a small
      state monad.  What the world answers is given by oracles, so every
      run of the model is a computation. *)

From Stdlib Require Import ZArith List String Bool Lia.
From Stdlib Require Import Reals Lra.
From Stdlib Require Import Floats.SpecFloat.
Import ListNotations.

Set Implicit Arguments.
Local Open Scope Z_scope.
Local Open Scope string_scope.
Local Open Scope list_scope.

(* ------------------------------------------------------------------ *)
(** * Numbers *)

(** The operations [Mav] applies to numbers.  Subtraction, addition,
    multiplication and [<] are Python's; [num_div] is numpy's division
    (it never raises); [np_sqrt] is the square root inside
    [numpy.linalg.norm]; [math_sqrt] is [math.sqrt], which raises
    [ValueError] (here [None]) on a negative argument; [dec m e] is the
    decimal literal [m * 10^e]. *)
Class PyNum (F : Type) : Type := {
  dec : Z -> Z -> F;
  num_add : F -> F -> F;
  num_sub : F -> F -> F;
  num_mul : F -> F -> F;
  num_div : F -> F -> F;
  num_abs : F -> F;
  num_ltb : F -> F -> bool;
  np_sqrt : F -> F;
  math_sqrt : F -> option F
}.

Declare Scope num_scope.
Delimit Scope num_scope with num.
Infix "+" := num_add : num_scope.
Infix "-" := num_sub : num_scope.
Infix "*" := num_mul : num_scope.
Infix "/" := num_div : num_scope.
Infix "<?" := num_ltb : num_scope.

(** ** IEEE 754 binary64 *)

Module B64.

Definition prec : Z := 53.
Definition emax : Z := 1024.

Definition of_Z (n : Z) : spec_float := binary_normalize prec emax n 0 false.

(** The double nearest to [m * 10^e].  For [e < 0] it is the correctly
    rounded quotient of two integers, each of which is itself a double
    for the literals of mav.py. *)
Definition of_dec (m e : Z) : spec_float :=
  match e with
  | Zneg p => SFdiv prec emax (of_Z m) (of_Z (Z.pow_pos 10 p))
  | _ => of_Z (m * 10 ^ e)
  end.

(** [math.sqrt]: a domain error exactly when the argument is below zero
    (a negative number or minus infinity); NaN goes through. *)
Definition checked_sqrt (x : spec_float) : option spec_float :=
  match x with
  | S754_finite true _ _ => None
  | S754_infinity true => None
  | _ => Some (SFsqrt prec emax x)
  end.

(** Not below zero: the arguments [math.sqrt] accepts. *)
Definition in_domain (x : spec_float) : Prop :=
  match x with
  | S754_finite true _ _ => False
  | S754_infinity true => False
  | S754_zero true => False
  | _ => True
  end.

End B64.

#[export] Instance binary64 : PyNum spec_float := {
  dec := B64.of_dec;
  num_add := SFadd B64.prec B64.emax;
  num_sub := SFsub B64.prec B64.emax;
  num_mul := SFmul B64.prec B64.emax;
  num_div := SFdiv B64.prec B64.emax;
  num_abs := SFabs;
  num_ltb := SFltb;
  np_sqrt := SFsqrt B64.prec B64.emax;
  math_sqrt := B64.checked_sqrt
}.

(** ** Exact arithmetic *)

Module Exact.

Definition ltb (x y : R) : bool := if Rlt_dec x y then true else false.

Definition checked_sqrt (x : R) : option R :=
  if Rlt_dec x 0 then None else Some (sqrt x).

Definition of_dec (m e : Z) : R := (IZR m * powerRZ 10 e)%R.

End Exact.

#[export] Instance exact : PyNum R := {
  dec := Exact.of_dec;
  num_add := Rplus;
  num_sub := Rminus;
  num_mul := Rmult;
  num_div := Rdiv;
  num_abs := Rabs;
  num_ltb := Exact.ltb;
  np_sqrt := sqrt;
  math_sqrt := Exact.checked_sqrt
}.

(* ------------------------------------------------------------------ *)
(** * Messages

    The ROS messages [Mav] reads and writes, with the fields it touches.
    ROS time is in nanoseconds. *)

Definition rostime : Type := Z.

(** [rospy.Duration(1.0)]. *)
Definition one_second : Z := 1000000000.

Module Point.
Record t (F : Type) : Type := mk { x : F; y : F; z : F }.
End Point.

Module Quaternion.
Record t (F : Type) : Type := mk { x : F; y : F; z : F; w : F }.
End Quaternion.

Module Vector3.
Record t (F : Type) : Type := mk { x : F; y : F; z : F }.
End Vector3.

Module Pose.
Record t (F : Type) : Type :=
  mk { position : Point.t F; orientation : Quaternion.t F }.
End Pose.

Module Header.
Record t : Type := mk { seq : Z; stamp : rostime; frame_id : string }.
Definition empty : t := mk 0 0 EmptyString.
End Header.

Module PoseStamped.
Record t (F : Type) : Type := mk { header : Header.t; pose : Pose.t F }.
End PoseStamped.

Module Twist.
Record t (F : Type) : Type :=
  mk { linear : Vector3.t F; angular : Vector3.t F }.
End Twist.

Module TwistStamped.
Record t (F : Type) : Type := mk { header : Header.t; twist : Twist.t F }.
End TwistStamped.

(** [mavros_msgs/State], the four fields [_state_callback] copies. *)
Module State.
Record t : Type :=
  mk { connected : bool; armed : bool; guided : bool; mode : string }.
Definition empty : t := mk false false false EmptyString.
End State.

(** Replies of the mavros services: the flag that says whether the
    request was accepted. *)
Module SetModeResponse.
Record t : Type := mk { mode_sent : bool }.
End SetModeResponse.

Module CommandBoolResponse.
Record t : Type := mk { success : bool }.
End CommandBoolResponse.

(** A three-element numpy array of numbers. *)
Module Arr3.
Record t (F : Type) : Type := mk { a0 : F; a1 : F; a2 : F }.
End Arr3.

(* ------------------------------------------------------------------ *)
(** * message_tools

    [Mav] imports five helpers from the module message_tools, whose code
    is not part of the sources at hand. *)

(** The three helpers that build or read orientations are taken as
    parameters; every statement below holds for whatever they compute. *)
Class MessageTools (F : Type) : Type := {
  orientation_to_yaw : Quaternion.t F -> F;
  create_setpoint_message_pos_yaw : Point.t F -> F -> PoseStamped.t F;
  create_setpoint_message_pos_ori :
    Point.t F -> Quaternion.t F -> PoseStamped.t F
}.

(** Modelled from the spec: [point_to_arr] is missing from the sources;
    section 4.1 describes it as the lossless conversion of a named-field
    point into a 3-element numeric vector. *)
Definition point_to_arr {F : Type} (p : Point.t F) : Arr3.t F :=
  Arr3.mk (Point.x p) (Point.y p) (Point.z p).

(** Modelled from the spec: [arr_to_point] is missing from the sources;
    section 4.1 describes it as the lossless conversion of a 3-element
    numeric vector into a named-field point. *)
Definition arr_to_point {F : Type} (a : Arr3.t F) : Point.t F :=
  Point.mk (Arr3.a0 a) (Arr3.a1 a) (Arr3.a2 a).

(** A stand-in for message_tools on which the model can be run: the yaw
    angle is kept as it is in the [z] slot of the orientation.  It serves
    the examples only. *)
Definition plain_tools {F : Type} {num : PyNum F} : MessageTools F := {|
  orientation_to_yaw := fun q => Quaternion.z q;
  create_setpoint_message_pos_yaw := fun p yaw =>
    PoseStamped.mk Header.empty
      (Pose.mk p (Quaternion.mk (dec 0 0) (dec 0 0) yaw (dec 1 0)));
  create_setpoint_message_pos_ori := fun p q =>
    PoseStamped.mk Header.empty (Pose.mk p q)
|}.

(* ------------------------------------------------------------------ *)
(** * numpy on three-element arrays *)

Section Numpy.
Context {F : Type} {num : PyNum F}.
Local Open Scope num_scope.

(** [a - b] and [a + b], element by element. *)
Definition arr_sub (a b : Arr3.t F) : Arr3.t F :=
  Arr3.mk (Arr3.a0 a - Arr3.a0 b) (Arr3.a1 a - Arr3.a1 b)
          (Arr3.a2 a - Arr3.a2 b).

Definition arr_add (a b : Arr3.t F) : Arr3.t F :=
  Arr3.mk (Arr3.a0 a + Arr3.a0 b) (Arr3.a1 a + Arr3.a1 b)
          (Arr3.a2 a + Arr3.a2 b).

(** [a / s] for a scalar [s]. *)
Definition arr_div (a : Arr3.t F) (s : F) : Arr3.t F :=
  Arr3.mk (Arr3.a0 a / s) (Arr3.a1 a / s) (Arr3.a2 a / s).

Definition arr_dot (a b : Arr3.t F) : F :=
  Arr3.a0 a * Arr3.a0 b + Arr3.a1 a * Arr3.a1 b + Arr3.a2 a * Arr3.a2 b.

(** [np.linalg.norm] of a vector: the square root of its dot product
    with itself. *)
Definition linalg_norm (a : Arr3.t F) : F := np_sqrt (arr_dot a a).

End Numpy.

(* ------------------------------------------------------------------ *)
(** * The world around the controller *)

(** What the controller does to ROS. *)
Inductive Event (F : Type) : Type :=
| SetNamespace (namespace : string)
| Advertise (topic : string) (queue_size : Z)
| Publish (msg : PoseStamped.t F)
| NewServiceProxy (name : string) (persistent : bool)
| NewSubscriber (topic : string)
| CallSetMode (base_mode : Z) (custom_mode : string)
| CallArming (value : bool)
| CallCommand (command : Z) (param1 : Z).

Arguments SetNamespace {F}.
Arguments Advertise {F}.
Arguments NewServiceProxy {F}.
Arguments NewSubscriber {F}.
Arguments CallSetMode {F}.
Arguments CallArming {F}.
Arguments CallCommand {F}.

(** [clock] is the ROS time.  Each primitive operation of the controller
    (a clock reading, a publication, a service call, a console line) is
    numbered; [delay k] nanoseconds pass before operation [k] starts
    (time never runs backwards), and [reply k] is the success flag of the
    answer when operation [k] is a service call.  [traffic] lists what
    reached ROS with the time at which it did, oldest first. *)
Record World (F : Type) : Type := {
  clock : rostime;
  steps : nat;
  delay : nat -> N;
  reply : nat -> bool;
  traffic : list (rostime * Event F);
  stdout : list string
}.

Definition fresh_world (F : Type) (t0 : rostime)
    (delay : nat -> N) (reply : nat -> bool) : World F :=
  {| clock := t0; steps := 0; delay := delay; reply := reply;
     traffic := []; stdout := [] |}.

Definition M (F A : Type) : Type := World F -> A * World F.

Definition ret {F A : Type} (a : A) : M F A := fun w => (a, w).

Definition bind {F A B : Type} (c : M F A) (k : A -> M F B) : M F B :=
  fun w => let (a, w') := c w in k a w'.

Declare Scope mav_scope.
Delimit Scope mav_scope with mav.
Notation "x <- c ;; k" := (bind c (fun x => k))
  (at level 61, c at next level, right associativity) : mav_scope.
Notation "c ;; k" := (bind c (fun _ => k))
  (at level 61, right associativity) : mav_scope.
Notation "x <~ c ;; k" := (match c with Some x => k | None => None end)
  (at level 61, c at next level, right associativity) : mav_scope.

Section Primitives.
Context {F : Type}.
Local Open Scope mav_scope.

(** Time passes and the operation counter moves on. *)
Definition tick : M F nat := fun w =>
  (steps w,
   {| clock := clock w + Z.of_N (delay w (steps w)); steps := S (steps w);
      delay := delay w; reply := reply w;
      traffic := traffic w; stdout := stdout w |}).

Definition record (e : Event F) : M F unit := fun w =>
  (tt,
   {| clock := clock w; steps := steps w; delay := delay w; reply := reply w;
      traffic := traffic w ++ [(clock w, e)]; stdout := stdout w |}).

Definition answer (k : nat) : M F bool := fun w => (reply w k, w).

(** [rospy.Time.now()]. *)
Definition time_now : M F rostime := _ <- tick ;; fun w => (clock w, w).

(** An effect on ROS with no answer. *)
Definition emit (e : Event F) : M F unit := _ <- tick ;; record e.

(** [print]. *)
Definition print (line : string) : M F unit :=
  _ <- tick ;;
  fun w =>
  (tt,
   {| clock := clock w; steps := steps w; delay := delay w; reply := reply w;
      traffic := traffic w; stdout := stdout w ++ [line] |}).

(** The service proxies [set_mode], [set_arming] and [set_command]. *)
Definition set_mode (base_mode : Z) (custom_mode : string)
  : M F SetModeResponse.t :=
  k <- tick ;; record (CallSetMode base_mode custom_mode) ;;
  b <- answer k ;; ret (SetModeResponse.mk b).

Definition set_arming (value : bool) : M F CommandBoolResponse.t :=
  k <- tick ;; record (CallArming value) ;;
  b <- answer k ;; ret (CommandBoolResponse.mk b).

Definition set_command (command param1 : Z) : M F CommandBoolResponse.t :=
  k <- tick ;; record (CallCommand command param1) ;;
  b <- answer k ;; ret (CommandBoolResponse.mk b).

(** Python's truth value of a service reply: a message object defines
    neither [__bool__] nor [__len__], so it counts as true whatever its
    fields hold. *)
Definition truth_value (r : CommandBoolResponse.t) : bool := true.

(** [for a in l: body(a)]. *)
Fixpoint for_each {A : Type} (l : list A) (body : A -> M F unit) : M F unit :=
  match l with
  | [] => ret tt
  | a :: l' => body a ;; for_each l' body
  end.

(** [range(lo, hi)]. *)
Definition range (lo hi : nat) : list nat := seq lo (hi - lo).

(** [mavros.get_topic]: the namespace and the parts joined by slashes. *)
Definition get_topic (namespace : string) (parts : list string) : string :=
  String.concat "/" (namespace :: parts).

End Primitives.

(* ------------------------------------------------------------------ *)
(** * The controller *)

Section Mav.
Context {F : Type} {num : PyNum F} {tools : MessageTools F}.
Local Open Scope mav_scope.

(** The fields [__init__] gives the object.  The publisher, the service
    proxies and the subscribers it also holds are the channels of the
    [World]. *)
Record Mav : Type := {
  rate : Z;
  current_pose : PoseStamped.t F;
  current_velocity : TwistStamped.t F;
  target_pose : PoseStamped.t F;
  UAV_state : State.t;
  last_request : rostime;
  max_speed : F;
  fly : bool
}.

Definition with_current_pose (v : PoseStamped.t F) (m : Mav) : Mav :=
  {| rate := rate m; current_pose := v;
     current_velocity := current_velocity m; target_pose := target_pose m;
     UAV_state := UAV_state m; last_request := last_request m;
     max_speed := max_speed m; fly := fly m |}.

Definition with_current_velocity (v : TwistStamped.t F) (m : Mav) : Mav :=
  {| rate := rate m; current_pose := current_pose m;
     current_velocity := v; target_pose := target_pose m;
     UAV_state := UAV_state m; last_request := last_request m;
     max_speed := max_speed m; fly := fly m |}.

Definition with_target_pose (v : PoseStamped.t F) (m : Mav) : Mav :=
  {| rate := rate m; current_pose := current_pose m;
     current_velocity := current_velocity m; target_pose := v;
     UAV_state := UAV_state m; last_request := last_request m;
     max_speed := max_speed m; fly := fly m |}.

Definition with_UAV_state (v : State.t) (m : Mav) : Mav :=
  {| rate := rate m; current_pose := current_pose m;
     current_velocity := current_velocity m; target_pose := target_pose m;
     UAV_state := v; last_request := last_request m;
     max_speed := max_speed m; fly := fly m |}.

Definition with_last_request (v : rostime) (m : Mav) : Mav :=
  {| rate := rate m; current_pose := current_pose m;
     current_velocity := current_velocity m; target_pose := target_pose m;
     UAV_state := UAV_state m; last_request := v;
     max_speed := max_speed m; fly := fly m |}.

Definition with_fly (v : bool) (m : Mav) : Mav :=
  {| rate := rate m; current_pose := current_pose m;
     current_velocity := current_velocity m; target_pose := target_pose m;
     UAV_state := UAV_state m; last_request := last_request m;
     max_speed := max_speed m; fly := v |}.

(** [PoseStamped()] and [TwistStamped()]: every number is zero. *)
Definition new_PoseStamped : PoseStamped.t F :=
  PoseStamped.mk Header.empty
    (Pose.mk (Point.mk (dec 0 0) (dec 0 0) (dec 0 0))
             (Quaternion.mk (dec 0 0) (dec 0 0) (dec 0 0) (dec 0 0))).

Definition new_TwistStamped : TwistStamped.t F :=
  TwistStamped.mk Header.empty
    (Twist.mk (Vector3.mk (dec 0 0) (dec 0 0) (dec 0 0))
              (Vector3.mk (dec 0 0) (dec 0 0) (dec 0 0))).

Definition publish (msg : PoseStamped.t F) : M F unit := emit (Publish msg).

(** ** [__init__] *)
Definition __init__ (namespace : string) : M F Mav :=
  now <- time_now ;;
  let self :=
    {| rate := 20;
       current_pose := new_PoseStamped;
       current_velocity := new_TwistStamped;
       target_pose := new_PoseStamped;
       UAV_state := State.empty;
       last_request := now;
       max_speed := dec 1 0;
       fly := true |} in
  emit (SetNamespace namespace) ;;
  emit (Advertise (get_topic namespace ["setpoint_position"; "local"]) 10) ;;
  for_each (range 0 100) (fun _ => publish (target_pose self)) ;;
  emit (NewServiceProxy (get_topic namespace ["cmd"; "arming"]) false) ;;
  emit (NewServiceProxy "mavros/cmd/command" true) ;;
  emit (NewServiceProxy (get_topic namespace ["set_mode"]) false) ;;
  emit (NewSubscriber (get_topic namespace ["state"])) ;;
  emit (NewSubscriber (get_topic namespace ["local_position"; "pose"])) ;;
  emit (NewSubscriber
          (get_topic namespace ["local_position"; "velocity_body"])) ;;
  ret self.

(** ** The flight state machine *)

Definition _autoland (m : Mav) : M F Mav :=
  now <- time_now ;;
  if now - last_request m >? one_second then
    if negb (State.mode (UAV_state m) =? "AUTO.LAND")%string then
      _ <- set_mode 0 "AUTO.LAND" ;;
      print "Enabling autoland mode" ;;
      now' <- time_now ;;
      ret (with_last_request now' m)
    else ret m
  else ret m.

Definition _arm_and_offboard (m : Mav) : M F Mav :=
  now <- time_now ;;
  if now - last_request m >? one_second then
    m1 <- (if negb (State.mode (UAV_state m) =? "OFFBOARD")%string then
             _ <- set_mode 0 "OFFBOARD" ;;
             print "Enabling offboard mode" ;;
             now' <- time_now ;;
             ret (with_last_request now' m)
           else ret m) ;;
    if negb (State.armed (UAV_state m1)) then
      r <- set_arming true ;;
      (if truth_value r then print "Vehicle armed" else ret tt) ;;
      now' <- time_now ;;
      ret (with_last_request now' m1)
    else ret m1
  else ret m.

Definition _set_states (m : Mav) : M F Mav :=
  if fly m then _arm_and_offboard m else _autoland m.

Definition _state_callback (topic : State.t) (m : Mav) : M F Mav :=
  let m1 :=
    with_UAV_state
      (State.mk (State.connected topic) (State.armed topic)
                (State.guided topic) (State.mode topic)) m in
  _set_states m1.

(** ** The setpoint limiter *)

Definition distance_limited_target (m : Mav) : PoseStamped.t F :=
  let point := Pose.position (PoseStamped.pose (target_pose m)) in
  let current :=
    point_to_arr (Pose.position (PoseStamped.pose (current_pose m))) in
  let target_arr := point_to_arr point in
  let diff := arr_sub target_arr current in
  let diffsize := linalg_norm diff in
  let max_dist := max_speed m in
  if (diffsize <? max_dist)%num then target_pose m
  else
    let ratio := (diffsize / max_dist)%num in
    let true_target := arr_add current (arr_div diff ratio) in
    let new_point := arr_to_point true_target in
    create_setpoint_message_pos_ori new_point
      (Pose.orientation (PoseStamped.pose (target_pose m))).

Definition _publish_target_pose (m : Mav) : M F unit :=
  publish (distance_limited_target m).

Definition _local_position_callback (topic : PoseStamped.t F) (m : Mav)
  : M F Mav :=
  let m1 := with_current_pose topic m in
  _publish_target_pose m1 ;;
  ret m1.

Definition _local_velocity_callback (topic : TwistStamped.t F) (m : Mav)
  : Mav :=
  with_current_velocity topic m.

(** ** The arrival detector

    [math.sqrt] may raise; a raised [ValueError] is [None]. *)

Definition get_pos_error (m : Mav) : option F :=
  let sp := Pose.position (PoseStamped.pose (target_pose m)) in
  let cp := Pose.position (PoseStamped.pose (current_pose m)) in
  let x := (Point.x sp - Point.x cp)%num in
  let y := (Point.y sp - Point.y cp)%num in
  let z := (Point.z sp - Point.z cp)%num in
  math_sqrt (x * x + y * y + z * z)%num.

Definition get_yaw_error (m : Mav) : F :=
  let sy :=
    orientation_to_yaw (Pose.orientation (PoseStamped.pose (target_pose m))) in
  let cy :=
    orientation_to_yaw (Pose.orientation (PoseStamped.pose (current_pose m))) in
  num_abs (sy - cy)%num.

Definition get_velocity_abs (m : Mav) : option F :=
  let vel := Twist.linear (TwistStamped.twist (current_velocity m)) in
  let x := Vector3.x vel in
  let y := Vector3.y vel in
  let z := Vector3.z vel in
  math_sqrt (x * x + y * y + z * z)%num.

Definition get_ang_vel_abs (m : Mav) : option F :=
  let vel := Twist.angular (TwistStamped.twist (current_velocity m)) in
  let x := Vector3.x vel in
  let y := Vector3.y vel in
  let z := Vector3.z vel in
  math_sqrt (x * x + y * y + z * z)%num.

Definition has_arrived (m : Mav) : option bool :=
  let maxdist := dec 5 (-1) in
  let maxang := dec 1 (-1) in
  let max_vel := dec 2 (-1) in
  let max_angvel := dec 5 (-2) in
  pos_error <~ get_pos_error m ;;
  let posgood := (pos_error <? maxdist)%num in
  let anggood := (get_yaw_error m <? maxang)%num in
  velocity_abs <~ get_velocity_abs m ;;
  let velgood := (velocity_abs <? max_vel)%num in
  ang_vel_abs <~ get_ang_vel_abs m ;;
  let angvelgood := (ang_vel_abs <? max_angvel)%num in
  if posgood && anggood && velgood && angvelgood then Some true
  else Some false.

(** ** Commands of the mission layer *)

Definition set_target_pose (pose : PoseStamped.t F) (m : Mav) : Mav :=
  with_target_pose pose m.

Definition set_target_pos (pos : Point.t F) (m : Mav) : Mav :=
  let yaw :=
    orientation_to_yaw (Pose.orientation (PoseStamped.pose (target_pose m))) in
  let pose := create_setpoint_message_pos_yaw pos yaw in
  set_target_pose pose m.

Definition set_target_yaw (yaw : F) (m : Mav) : Mav :=
  let pos := Pose.position (PoseStamped.pose (target_pose m)) in
  let pose := create_setpoint_message_pos_yaw pos yaw in
  set_target_pose pose m.

Definition land (m : Mav) : Mav := with_fly false m.

Definition takeoff (m : Mav) : Mav := with_fly true m.

Definition deploy_parachute (m : Mav) : M F unit :=
  print "Deploing parachute..." ;;
  _ <- set_command 185 1 ;;
  ret tt.

(** ** The controller as a reactive system

    Everything that can happen to a controller once it is built: a
    message on one of its three subscriptions, or a call of the mission
    layer.  Calls are handled one at a time. *)
Inductive Call : Type :=
| OnState (topic : State.t)
| OnLocalPosition (topic : PoseStamped.t F)
| OnLocalVelocity (topic : TwistStamped.t F)
| DoSetTargetPose (pose : PoseStamped.t F)
| DoSetTargetPos (pos : Point.t F)
| DoSetTargetYaw (yaw : F)
| DoLand
| DoTakeoff
| DoDeployParachute.

Definition handle (c : Call) (m : Mav) : M F Mav :=
  match c with
  | OnState topic => _state_callback topic m
  | OnLocalPosition topic => _local_position_callback topic m
  | OnLocalVelocity topic => ret (_local_velocity_callback topic m)
  | DoSetTargetPose pose => ret (set_target_pose pose m)
  | DoSetTargetPos pos => ret (set_target_pos pos m)
  | DoSetTargetYaw yaw => ret (set_target_yaw yaw m)
  | DoLand => ret (land m)
  | DoTakeoff => ret (takeoff m)
  | DoDeployParachute => deploy_parachute m ;; ret m
  end.

Fixpoint run (calls : list Call) (m : Mav) : M F Mav :=
  match calls with
  | [] => ret m
  | c :: rest => m' <- handle c m ;; run rest m'
  end.

End Mav.

Arguments Mav : clear implicits.
Arguments Call : clear implicits.

(* ------------------------------------------------------------------ *)
(** * Vocabulary of the specification *)

Section Vocabulary.
Context {F : Type} {num : PyNum F} {tools : MessageTools F}.
Local Open Scope num_scope.

Definition is_mode_request (e : Event F) : bool :=
  match e with CallSetMode _ _ => true | _ => false end.

Definition is_arm_request (e : Event F) : bool :=
  match e with CallArming _ => true | _ => false end.

Definition is_request (e : Event F) : bool :=
  is_mode_request e || is_arm_request e.

Definition is_setpoint (e : Event F) : bool :=
  match e with Publish _ => true | _ => false end.

Definition is_command (e : Event F) : bool :=
  match e with CallCommand _ _ => true | _ => false end.

(** The one-second window that opens at [s], both ends included. *)
Definition within (s t : rostime) : bool :=
  ((s <=? t) && (t <=? s + one_second))%Z.

(** How many events of one kind the log holds in the window opening at
    [s]. *)
Definition requests_within (kind : Event F -> bool) (s : rostime)
    (log : list (rostime * Event F)) : nat :=
  List.length (filter (fun te => kind (snd te) && within s (fst te)) log).

(** Between [w] and [w'] exactly the events [es] reached ROS, in that
    order. *)
Definition emitted (w w' : World F) (es : list (Event F)) : Prop :=
  exists l, traffic w' = traffic w ++ l /\ map snd l = es.

(** What the next reading of the clock will show. *)
Definition next_reading (w : World F) : rostime :=
  (clock w + Z.of_N (delay w (steps w)))%Z.

(** Everything but the target pose is the same in [m] and [m']. *)
Definition same_but_target (m m' : Mav F) : Prop :=
  rate m' = rate m /\
  current_pose m' = current_pose m /\
  current_velocity m' = current_velocity m /\
  UAV_state m' = UAV_state m /\
  last_request m' = last_request m /\
  max_speed m' = max_speed m /\
  fly m' = fly m.

(** The four quantities the arrival detector compares. *)
Definition euclidean_norm (x y z : F) : F := np_sqrt (x * x + y * y + z * z).

Definition position_error (m : Mav F) : F :=
  let sp := Pose.position (PoseStamped.pose (target_pose m)) in
  let cp := Pose.position (PoseStamped.pose (current_pose m)) in
  euclidean_norm (Point.x sp - Point.x cp) (Point.y sp - Point.y cp)
                 (Point.z sp - Point.z cp).

Definition yaw_error (m : Mav F) : F :=
  num_abs
    (orientation_to_yaw (Pose.orientation (PoseStamped.pose (target_pose m)))
     - orientation_to_yaw
         (Pose.orientation (PoseStamped.pose (current_pose m)))).

Definition linear_speed (m : Mav F) : F :=
  let v := Twist.linear (TwistStamped.twist (current_velocity m)) in
  euclidean_norm (Vector3.x v) (Vector3.y v) (Vector3.z v).

Definition angular_speed (m : Mav F) : F :=
  let v := Twist.angular (TwistStamped.twist (current_velocity m)) in
  euclidean_norm (Vector3.x v) (Vector3.y v) (Vector3.z v).

(** All four are below their thresholds: 0.5 m, 0.1 rad, 0.2 m/s and
    0.05 rad/s. *)
Definition within_tolerance (m : Mav F) : Prop :=
  (position_error m <? dec 5 (-1)) = true /\
  (yaw_error m <? dec 1 (-1)) = true /\
  (linear_speed m <? dec 2 (-1)) = true /\
  (angular_speed m <? dec 5 (-2)) = true.

(** The burst of [__init__] could be given any length: for every count
    some way of building the controller publishes that many setpoints. *)
Definition burst_count_configurable : Prop :=
  forall n : nat, exists (namespace : string) (w : World F) es,
    emitted w (snd (__init__ namespace w)) es /\
    List.length (filter is_setpoint es) = n.

(** A request whose answer reports a failure leaves [last_request] as it
    was. *)
Definition failed_request_keeps_timer : Prop :=
  forall (m : Mav F) (topic : State.t) (w : World F),
    (forall k, reply w k = false) ->
    last_request (fst (_state_callback topic m w)) = last_request m.

(** The same world with other answers to its service calls. *)
Definition answering (rp : nat -> bool) (w : World F) : World F :=
  {| clock := clock w; steps := steps w; delay := delay w; reply := rp;
     traffic := traffic w; stdout := stdout w |}.

(** The throttle window is over at the next reading of the clock. *)
Definition expired (m : Mav F) (w : World F) : Prop :=
  (next_reading w - last_request m > one_second)%Z.

(** What one vehicle-state update makes the controller ask for. *)
Inductive Reaction : Type :=
| Quiet
| ModeOnly (custom_mode : string) (t : rostime)
| ArmOnly (t : rostime)
| ModeThenArm (t1 t2 : rostime).

Definition requests_of (r : Reaction) : list (rostime * Event F) :=
  match r with
  | Quiet => []
  | ModeOnly custom_mode t => [(t, CallSetMode 0 custom_mode)]
  | ArmOnly t => [(t, CallArming true)]
  | ModeThenArm t1 t2 =>
      [(t1, CallSetMode 0 "OFFBOARD"); (t2, CallArming true)]
  end.

(** When each reaction occurs, and the time stamps that go with it. *)
Definition justified (m : Mav F) (topic : State.t) (w : World F)
    (m' : Mav F) (w' : World F) (r : Reaction) : Prop :=
  match r with
  | Quiet =>
      last_request m' = last_request m /\
      (~ expired m w \/
       (fly m = false /\ State.mode topic = "AUTO.LAND") \/
       (fly m = true /\ State.mode topic = "OFFBOARD" /\
        State.armed topic = true))
  | ModeOnly custom_mode t =>
      expired m w /\ (next_reading w <= t <= last_request m')%Z /\
      last_request m' = clock w' /\
      State.mode topic <> custom_mode /\
      ((fly m = false /\ custom_mode = "AUTO.LAND") \/
       (fly m = true /\ custom_mode = "OFFBOARD" /\
        State.armed topic = true))
  | ArmOnly t =>
      expired m w /\ (next_reading w <= t <= last_request m')%Z /\
      last_request m' = clock w' /\
      fly m = true /\ State.mode topic = "OFFBOARD" /\
      State.armed topic = false
  | ModeThenArm t1 t2 =>
      expired m w /\ (next_reading w <= t1)%Z /\
      (t1 <= t2 <= last_request m')%Z /\
      last_request m' = clock w' /\
      fly m = true /\ State.mode topic <> "OFFBOARD" /\
      State.armed topic = false
  end.

(** The requests one call adds to the log: each is stamped more than a
    second after the [last_request] the call started from and no later
    than the [last_request] it leaves; at most one of each kind. *)
Definition well_spaced (before after : rostime)
    (new : list (rostime * Event F)) : Prop :=
  (before <= after)%Z /\
  (forall t e, In (t, e) new -> is_request e = true ->
     (before + one_second < t)%Z /\ (t <= after)%Z) /\
  (List.length (filter (fun te => is_mode_request (snd te)) new) <= 1)%nat /\
  (List.length (filter (fun te => is_arm_request (snd te)) new) <= 1)%nat.

(** The invariant behind the throttle: no logged request is later than
    [last_request], and no window holds two requests of a kind. *)
Definition throttled (m : Mav F) (log : list (rostime * Event F)) : Prop :=
  (forall t e, In (t, e) log -> is_request e = true ->
     (t <= last_request m)%Z) /\
  (forall s, (requests_within is_mode_request s log <= 1)%nat) /\
  (forall s, (requests_within is_arm_request s log <= 1)%nat).

End Vocabulary.

(** ** Geometry in exact arithmetic *)

Section Geometry.
Local Open Scope R_scope.

Definition distance (p q : Point.t R) : R :=
  sqrt ((Point.x q - Point.x p) * (Point.x q - Point.x p)
        + (Point.y q - Point.y p) * (Point.y q - Point.y p)
        + (Point.z q - Point.z p) * (Point.z q - Point.z p)).

(** The unit vector from [p] towards [q]. *)
Definition direction (p q : Point.t R) : Arr3.t R :=
  Arr3.mk ((Point.x q - Point.x p) / distance p q)
          ((Point.y q - Point.y p) / distance p q)
          ((Point.z q - Point.z p) / distance p q).

(** [p] moved by the fraction [k] of the way to [q]. *)
Definition towards (p q : Point.t R) (k : R) : Point.t R :=
  Point.mk (Point.x p + (Point.x q - Point.x p) * k)
           (Point.y p + (Point.y q - Point.y p) * k)
           (Point.z p + (Point.z q - Point.z p) * k).

End Geometry.

(* ------------------------------------------------------------------ *)
(** * Concrete controllers and worlds *)

Module Sample.

Definition origin {F : Type} {num : PyNum F} : Point.t F :=
  Point.mk (dec 0 0) (dec 0 0) (dec 0 0).

Definition level {F : Type} {num : PyNum F} : Quaternion.t F :=
  Quaternion.mk (dec 0 0) (dec 0 0) (dec 0 0) (dec 1 0).

Definition at_rest {F : Type} {num : PyNum F} : TwistStamped.t F :=
  TwistStamped.mk Header.empty
    (Twist.mk (Vector3.mk (dec 0 0) (dec 0 0) (dec 0 0))
              (Vector3.mk (dec 0 0) (dec 0 0) (dec 0 0))).

(** A controller sitting at the origin with its target at [target]:
    disarmed, in manual mode, last request at time zero. *)
Definition parked {F : Type} {num : PyNum F} (target : Point.t F)
    (flying : bool) : Mav F :=
  {| rate := 20;
     current_pose := PoseStamped.mk Header.empty (Pose.mk origin level);
     current_velocity := at_rest;
     target_pose := PoseStamped.mk Header.empty (Pose.mk target level);
     UAV_state := State.mk true false false "MANUAL";
     last_request := 0;
     max_speed := dec 1 0;
     fly := flying |}.

(** A world whose clock shows two seconds, in which every operation takes
    a tenth of a second and every request is refused. *)
Definition refusing (F : Type) : World F :=
  fresh_world F 2000000000 (fun _ => 100000000%N) (fun _ => false).

Definition manual : State.t := State.mk true false false "MANUAL".

End Sample.

(* ------------------------------------------------------------------ *)
(** * Vocabulary of the further properties *)

Section Further.
Context {F : Type} {num : PyNum F} {tools : MessageTools F}.

Definition is_state_update (c : Call F) : bool :=
  match c with OnState _ => true | _ => false end.

Definition is_pose_update (c : Call F) : bool :=
  match c with OnLocalPosition _ => true | _ => false end.

Definition is_parachute_call (c : Call F) : bool :=
  match c with DoDeployParachute => true | _ => false end.

(** The fly flag after a sequence of calls: what the last [land] or
    [takeoff] among them left, or the flag as it was. *)
Definition final_intent (calls : list (Call F)) (flying : bool) : bool :=
  fold_left
    (fun b c => match c with DoLand => false | DoTakeoff => true | _ => b end)
    calls flying.

(** The vehicle already reports what the controller is after. *)
Definition wanted_state_reported (m : Mav F) (topic : State.t) : Prop :=
  (fly m = false /\ State.mode topic = "AUTO.LAND") \/
  (fly m = true /\ State.mode topic = "OFFBOARD" /\
   State.armed topic = true).

(** What is missing for offboard flight: the mode, the arming, or both. *)
Definition missing_for_offboard (topic : State.t) : list (Event F) :=
  (if (State.mode topic =? "OFFBOARD")%string then []
   else [CallSetMode 0 "OFFBOARD"])
  ++ (if State.armed topic then [] else [CallArming true]).

(** How many events of one kind a stretch of log holds. *)
Definition count_in (kind : Event F -> bool)
    (log : list (rostime * Event F)) : nat :=
  List.length (filter (fun te => kind (snd te)) log).

End Further.

(** Some coordinate of the point is NaN. *)
Definition has_nan (p : Point.t spec_float) : Prop :=
  Point.x p = S754_nan \/ Point.y p = S754_nan \/ Point.z p = S754_nan.

Definition nan_point : Point.t spec_float :=
  Point.mk S754_nan S754_nan S754_nan.

(** The length of a velocity vector in exact arithmetic. *)
Definition speed (v : Vector3.t R) : R :=
  sqrt (Vector3.x v * Vector3.x v + Vector3.y v * Vector3.y v
        + Vector3.z v * Vector3.z v)%R.

(* ------------------------------------------------------------------ *)
(** * Proof tools *)

(** Every delay is a natural number of nanoseconds. *)
Ltac delays :=
  repeat match goal with
  | |- context [Z.of_N ?n] =>
      lazymatch goal with
      | _ : 0 <= Z.of_N n |- _ => fail
      | _ => pose proof (N2Z.is_nonneg n)
      end
  end.

(** Runs the state machine and the primitives it is made of. *)
Ltac run_model :=
  unfold _state_callback, _set_states, _arm_and_offboard, _autoland,
    set_arming, set_mode, set_command, truth_value, time_now, print, emit,
    tick, record, answer, bind, ret; cbn.

(* ------------------------------------------------------------------ *)
(** * Lists of logged events *)

Unset Implicit Arguments.

Section Logs.
Context {F : Type}.

Lemma filter_none {A : Type} (f : A -> bool) (l : list A) :
  (forall a, In a l -> f a = false) -> filter f l = [].
Proof.
  induction l as [|a l IH]; intros H; cbn; [reflexivity|].
  rewrite (H a (or_introl eq_refl)). apply IH. intros b Hb. apply H. now right.
Qed.

Lemma requests_within_app (kind : Event F -> bool) (s : rostime)
    (l1 l2 : list (rostime * Event F)) :
  requests_within kind s (l1 ++ l2) =
  (requests_within kind s l1 + requests_within kind s l2)%nat.
Proof. unfold requests_within. now rewrite filter_app, length_app. Qed.

Lemma requests_within_none (kind : Event F -> bool) (s : rostime)
    (l : list (rostime * Event F)) :
  (forall t e, In (t, e) l -> kind e = true -> t < s) ->
  requests_within kind s l = 0%nat.
Proof.
  unfold requests_within.
  induction l as [|[t e] l IH]; intros H; cbn; [reflexivity|].
  destruct (kind e) eqn:K; cbn.
  - assert (t < s) by (apply (H t e); [now left | assumption]).
    unfold within. destruct (Z.leb_spec s t); [lia|]. cbn.
    apply IH. intros t' e' Hin. apply H. now right.
  - apply IH. intros t' e' Hin. apply H. now right.
Qed.

Lemma requests_within_le (kind : Event F -> bool) (s : rostime)
    (l : list (rostime * Event F)) :
  (requests_within kind s l
   <= List.length (filter (fun te => kind (snd te)) l))%nat.
Proof.
  unfold requests_within. induction l as [|[t e] l IH]; cbn; [lia|].
  destruct (kind e); cbn; [destruct (within s t); cbn; lia | assumption].
Qed.

Lemma requests_within_some (kind : Event F -> bool) (s : rostime)
    (l : list (rostime * Event F)) :
  requests_within kind s l <> 0%nat ->
  exists t e, In (t, e) l /\ kind e = true /\ s <= t <= s + one_second.
Proof.
  unfold requests_within. induction l as [|[t e] l IH]; cbn; [congruence|].
  destruct (kind e) eqn:K; cbn.
  - unfold within at 1. destruct (Z.leb_spec s t); cbn.
    + destruct (Z.leb_spec t (s + one_second)); cbn.
      * intros _. exists t, e. repeat split; auto; lia.
      * intros H1. destruct (IH H1) as (t' & e' & Hin & Hk & Hw).
        exists t', e'. auto.
    + intros H1. destruct (IH H1) as (t' & e' & Hin & Hk & Hw).
      exists t', e'. auto.
  - intros H1. destruct (IH H1) as (t' & e' & Hin & Hk & Hw).
    exists t', e'. auto.
Qed.

Lemma emitted_unique (w w' : World F) (es es' : list (Event F)) :
  emitted w w' es -> emitted w w' es' -> es = es'.
Proof.
  intros (l & Hl & <-) (l' & Hl' & <-). rewrite Hl in Hl'.
  apply app_inv_head in Hl'. now subst.
Qed.

Lemma emitted_refl (w : World F) : emitted w w [].
Proof. exists []. now rewrite app_nil_r. Qed.

Lemma emitted_eq (w w' : World F) (es es' : list (Event F)) :
  emitted w w' es' -> es' = es -> emitted w w' es.
Proof. now intros H <-. Qed.

Lemma emitted_time_now (w x : World F) (es : list (Event F)) :
  emitted w x es -> emitted w (snd (time_now x)) es.
Proof. intros (l & Hl & Hes). exists l. now split. Qed.

Lemma emitted_emit (e : Event F) (w x : World F) (es : list (Event F)) :
  emitted w x es -> emitted w (snd (emit e x)) (es ++ [e]).
Proof.
  intros (l & Hl & Hes). eexists (l ++ [_]). split.
  - unfold emit, tick, record, bind. cbn. rewrite Hl, <- app_assoc.
    reflexivity.
  - rewrite map_app, Hes. reflexivity.
Qed.

Lemma snd_bind {A B : Type} (c : M F A) (k : A -> M F B) (w : World F) :
  snd (bind c k w) = snd (k (fst (c w)) (snd (c w))).
Proof. unfold bind. now destruct (c w). Qed.

Lemma fst_bind {A B : Type} (c : M F A) (k : A -> M F B) (w : World F) :
  fst (bind c k w) = fst (k (fst (c w)) (snd (c w))).
Proof. unfold bind. now destruct (c w). Qed.

Lemma emitted_for_each {A : Type} (e : Event F) (l : list A) :
  forall (w x : World F) (es : list (Event F)),
  emitted w x es ->
  emitted w (snd (for_each l (fun _ => emit e) x))
            (es ++ repeat e (List.length l)).
Proof.
  induction l as [|a l IH]; intros w x es H;
    cbn [for_each List.length repeat].
  - now rewrite app_nil_r.
  - rewrite snd_bind.
    replace (es ++ e :: repeat e (List.length l))
      with ((es ++ [e]) ++ repeat e (List.length l))
      by now rewrite <- app_assoc.
    apply IH. now apply emitted_emit.
Qed.

End Logs.

(* ------------------------------------------------------------------ *)
(** * The flight state machine *)

Section StateMachine.
Context {F : Type} {num : PyNum F} {tools : MessageTools F}.

(** What a vehicle-state update does, case by case. *)
Lemma state_callback_reaction (m : Mav F) (topic : State.t) (w : World F) :
  let m' := fst (_state_callback topic m w) in
  let w' := snd (_state_callback topic m w) in
  exists r : Reaction,
    traffic w' = traffic w ++ requests_of r /\
    justified m topic w m' w' r /\
    m' = with_last_request (last_request m')
           (with_UAV_state
              (State.mk (State.connected topic) (State.armed topic)
                        (State.guided topic) (State.mode topic)) m) /\
    delay w' = delay w /\ reply w' = reply w /\ clock w <= clock w'.
Proof.
  destruct topic as [c a g md]. destruct m as [rt cp cv tp us lr ms fl].
  run_model. unfold justified, expired, next_reading. cbn.
  destruct fl; cbn.
  - destruct (Z.gtb_spec (clock w + Z.of_N (delay w (steps w)) - lr)
                one_second) as [He|He]; cbn.
    + destruct (String.eqb_spec md "OFFBOARD") as [Hm|Hm]; destruct a; cbn.
      * exists Quiet. cbn. rewrite app_nil_r. delays.
        repeat split; try reflexivity; try lia. right; right. auto.
      * eexists (ArmOnly _). cbn. delays.
        repeat split; try reflexivity; try lia; auto.
      * eexists (ModeOnly _ _). cbn. delays.
        repeat split; try reflexivity; try lia; auto.
      * eexists (ModeThenArm _ _). cbn. rewrite <- app_assoc. cbn. delays.
        repeat split; try reflexivity; try lia; auto.
    + exists Quiet. cbn. rewrite app_nil_r. delays.
      repeat split; try reflexivity; lia.
  - destruct (Z.gtb_spec (clock w + Z.of_N (delay w (steps w)) - lr)
                one_second) as [He|He]; cbn.
    + destruct (String.eqb_spec md "AUTO.LAND") as [Hm|Hm]; cbn.
      * exists Quiet. cbn. rewrite app_nil_r. delays.
        repeat split; try reflexivity; try lia. right; left. auto.
      * eexists (ModeOnly _ _). cbn. delays.
        repeat split; try reflexivity; try lia; auto.
    + exists Quiet. cbn. rewrite app_nil_r. delays.
      repeat split; try reflexivity; lia.
Qed.

(** The answers of the services play no part in what the controller
    becomes. *)
Lemma state_callback_whatever_answer (m : Mav F) (topic : State.t)
    (w : World F) (rp : nat -> bool) :
  fst (_state_callback topic m (answering rp w))
  = fst (_state_callback topic m w).
Proof.
  destruct topic as [c a g md]. destruct m as [rt cp cv tp us lr ms fl].
  run_model.
  destruct fl; cbn;
    destruct (clock w + Z.of_N (delay w (steps w)) - lr >? one_second); cbn;
    try reflexivity.
  - destruct (md =? "OFFBOARD")%string; destruct a; reflexivity.
  - destruct (md =? "AUTO.LAND")%string; reflexivity.
Qed.

Lemma throttled_step (m m' : Mav F) (log new : list (rostime * Event F)) :
  throttled m log ->
  well_spaced (last_request m) (last_request m') new ->
  throttled m' (log ++ new).
Proof.
  intros (Hold & Hmode & Harm) (Hle & Hnew & Cm & Ca).
  assert (Hwin : forall kind : Event F -> bool,
             (forall e, kind e = true -> is_request e = true) ->
             (List.length (filter (fun te => kind (snd te)) new) <= 1)%nat ->
             (forall s, (requests_within kind s log <= 1)%nat) ->
             forall s, (requests_within kind s (log ++ new) <= 1)%nat).
  { intros kind Hk Hc Hl s. rewrite requests_within_app.
    pose proof (requests_within_le kind s new) as Hb.
    destruct (Nat.eq_dec (requests_within kind s new) 0) as [Hz|Hnz].
    - rewrite Hz. specialize (Hl s). lia.
    - destruct (requests_within_some kind s new Hnz)
        as (t & e & Hin & Ke & Hw).
      destruct (Hnew t e Hin (Hk e Ke)) as [Hlate _].
      rewrite (requests_within_none kind s log); [lia|].
      intros t0 e0 Hin0 K0. specialize (Hold t0 e0 Hin0 (Hk e0 K0)). lia. }
  split; [|split].
  - intros t e Hin Hr. apply in_app_or in Hin. destruct Hin as [Hin|Hin].
    + specialize (Hold t e Hin Hr). lia.
    + apply (Hnew t e Hin Hr).
  - apply Hwin; auto. intros e He. unfold is_request. now rewrite He.
  - apply Hwin; auto. intros e He. unfold is_request. rewrite He.
    apply orb_true_r.
Qed.

Lemma requests_of_well_spaced (m : Mav F) (topic : State.t) (w : World F) :
  let m' := fst (_state_callback topic m w) in
  let w' := snd (_state_callback topic m w) in
  exists new, traffic w' = traffic w ++ new /\
    well_spaced (last_request m) (last_request m') new.
Proof.
  cbv zeta. destruct (state_callback_reaction m topic w) as (r & Ht & Hj & _).
  exists (requests_of r). split; [exact Ht|].
  unfold well_spaced, justified, expired, one_second in *.
  destruct r as [|cm t|t|t1 t2]; cbn.
  - destruct Hj as [Hl _]. rewrite Hl. repeat split; try lia; intros t e [].
  - destruct Hj as (He & Ht1 & _). split; [lia|]. split; [|split; lia].
    intros t' e' [Heq|[]] _; inversion Heq; subst; lia.
  - destruct Hj as (He & Ht1 & _). split; [lia|]. split; [|split; lia].
    intros t' e' [Heq|[]] _; inversion Heq; subst; lia.
  - destruct Hj as (He & Ht1 & Ht2 & _). split; [lia|]. split; [|split; lia].
    intros t' e' [Heq|[Heq|[]]] _; inversion Heq; subst; lia.
Qed.

Lemma no_request_well_spaced (t : rostime)
    (new : list (rostime * Event F)) :
  (forall t' e, In (t', e) new -> is_request e = false) ->
  well_spaced t t new.
Proof.
  intros Hnone. unfold well_spaced. split; [lia|]. split; [|split].
  - intros t' e Hin Hr. rewrite (Hnone t' e Hin) in Hr. discriminate.
  - rewrite filter_none; [cbn; lia|].
    intros [t' e] Hin. cbn. specialize (Hnone t' e Hin).
    unfold is_request in Hnone. now apply orb_false_elim in Hnone.
  - rewrite filter_none; [cbn; lia|].
    intros [t' e] Hin. cbn. specialize (Hnone t' e Hin).
    unfold is_request in Hnone. now apply orb_false_elim in Hnone.
Qed.

Lemma handle_well_spaced (c : Call F) (m : Mav F) (w : World F) :
  exists new, traffic (snd (handle c m w)) = traffic w ++ new /\
    well_spaced (last_request m) (last_request (fst (handle c m w))) new.
Proof.
  destruct c as [topic|topic|topic|pose|pos|yaw| | |]; cbn [handle];
    try (exists []; rewrite app_nil_r; split; [reflexivity|];
         apply no_request_well_spaced; intros ? ? []).
  - apply requests_of_well_spaced.
  - eexists. split.
    + unfold _local_position_callback, _publish_target_pose, publish.
      run_model. reflexivity.
    + apply no_request_well_spaced.
      intros ? ? [Heq|[]]; inversion Heq; reflexivity.
  - eexists. split.
    + unfold deploy_parachute. run_model. reflexivity.
    + apply no_request_well_spaced.
      intros ? ? [Heq|[]]; inversion Heq; reflexivity.
Qed.

Lemma run_throttled (calls : list (Call F)) :
  forall (m : Mav F) (w : World F),
  throttled m (traffic w) ->
  throttled (fst (run calls m w)) (traffic (snd (run calls m w))).
Proof.
  induction calls as [|c rest IH]; intros m w Hinv; cbn [run];
    [exact Hinv|].
  unfold bind. destruct (handle c m w) as [m1 w1] eqn:Hc.
  apply IH.
  destruct (handle_well_spaced c m w) as (new & Ht & Hs).
  rewrite Hc in Ht, Hs. cbn in Ht, Hs. rewrite Ht.
  now apply throttled_step with (m := m).
Qed.

(** C3.  Whatever calls reach a controller, in whatever order and however
    often, the log of a world that started empty never holds two
    mode-change requests, nor two arm requests, in one window of one
    second. *)
Theorem throttle_window (m : Mav F) (t0 : rostime) (dl : nat -> N)
    (rp : nat -> bool) (calls : list (Call F)) (s : rostime) :
  let w' := snd (run calls m (fresh_world F t0 dl rp)) in
  (requests_within is_mode_request s (traffic w') <= 1)%nat /\
  (requests_within is_arm_request s (traffic w') <= 1)%nat.
Proof.
  cbv zeta.
  assert (H : throttled m (traffic (fresh_world F t0 dl rp))).
  { unfold throttled, requests_within. cbn.
    split; [intros t e []|]. split; intros; lia. }
  apply run_throttled with (calls := calls) in H.
  destruct H as (_ & Hm & Ha). split; [apply Hm | apply Ha].
Qed.

(** C4.  A vehicle-state update handled while the fly flag is off leaves
    the flag off and sends either nothing or the single request for mode
    AUTO.LAND, the latter only when the reported mode is another one and
    the throttle window is over: no arm request, no OFFBOARD request. *)
Theorem landing_requests_only_autoland (m : Mav F) (topic : State.t)
    (w : World F) :
  fly m = false ->
  let m' := fst (_state_callback topic m w) in
  let w' := snd (_state_callback topic m w) in
  fly m' = false /\
  (emitted w w' [] \/
   (emitted w w' [CallSetMode 0 "AUTO.LAND"] /\
    State.mode topic <> "AUTO.LAND" /\ expired m w)).
Proof.
  intros Hfly. cbv zeta.
  destruct (state_callback_reaction m topic w)
    as (r & Ht & Hj & Hm & _).
  split; [rewrite Hm; exact Hfly|].
  destruct r as [|cm t|t|t1 t2]; cbn in Ht, Hj.
  - left. exists []. now split.
  - destruct Hj as (He & _ & _ & Hne & [[_ ->]|[Hf _]]); [|congruence].
    right. split; [|split; assumption].
    exists [(t, CallSetMode 0 "AUTO.LAND")]. now split.
  - destruct Hj as (_ & _ & _ & Hf & _). congruence.
  - destruct Hj as (_ & _ & _ & _ & Hf & _). congruence.
Qed.

(** C9.  With the fly flag on, the throttle window over, a reported mode
    other than OFFBOARD and a disarmed vehicle, one vehicle-state update
    sends the OFFBOARD request and then the arm request, both within that
    update. *)
Theorem offboard_then_arm_in_one_update (m : Mav F) (topic : State.t)
    (w : World F) :
  fly m = true ->
  expired m w ->
  State.mode topic <> "OFFBOARD" ->
  State.armed topic = false ->
  let m' := fst (_state_callback topic m w) in
  let w' := snd (_state_callback topic m w) in
  exists t1 t2 : rostime,
    next_reading w <= t1 /\ t1 <= t2 <= last_request m' /\
    traffic w' =
      traffic w ++ [(t1, CallSetMode 0 "OFFBOARD"); (t2, CallArming true)].
Proof.
  intros Hfly Hexp Hmode Harmed. cbv zeta.
  destruct (state_callback_reaction m topic w) as (r & Ht & Hj & _).
  destruct r as [|cm t|t|t1 t2]; cbn in Ht, Hj.
  - destruct Hj as (_ & [Hn|[[Hf _]|(_ & Hmd & _)]]);
      [contradiction | congruence | contradiction].
  - destruct Hj as (_ & _ & _ & _ & [[Hf _]|(_ & _ & Ha)]); congruence.
  - destruct Hj as (_ & _ & _ & _ & Hmd & _). contradiction.
  - destruct Hj as (_ & H1 & H2 & _). exists t1, t2. auto.
Qed.

(** C5, amended.  [last_request] follows the requests, not their
    success: an update that sends no request leaves it as it was; an
    update that sends one sets it to the clock reading taken after the
    last request returned, which is no earlier than any request sent; and
    the answers of the services change nothing in the outcome. *)
Theorem last_request_follows_requests (m : Mav F) (topic : State.t)
    (w : World F) :
  let m' := fst (_state_callback topic m w) in
  let w' := snd (_state_callback topic m w) in
  exists new : list (rostime * Event F),
    traffic w' = traffic w ++ new /\
    (new = [] -> last_request m' = last_request m) /\
    (new <> [] ->
       last_request m' = clock w' /\
       forall t e, In (t, e) new -> t <= last_request m') /\
    forall rp, fst (_state_callback topic m (answering rp w)) = m'.
Proof.
  cbv zeta.
  destruct (state_callback_reaction m topic w) as (r & Ht & Hj & _).
  exists (requests_of r). split; [exact Ht|].
  split; [|split; [|intros rp; apply state_callback_whatever_answer]].
  - destruct r; cbn; intros Hnil; try discriminate. now destruct Hj.
  - destruct r as [|cm t|t|t1 t2]; cbn in *; intros Hne.
    + contradiction.
    + destruct Hj as (_ & H1 & H2 & _). split; [exact H2|].
      intros t' e' [Heq|[]]; inversion Heq; subst; lia.
    + destruct Hj as (_ & H1 & H2 & _). split; [exact H2|].
      intros t' e' [Heq|[]]; inversion Heq; subst; lia.
    + destruct Hj as (_ & H1 & H2 & H3 & _). split; [exact H3|].
      intros t' e' [Heq|[Heq|[]]]; inversion Heq; subst; lia.
Qed.

End StateMachine.

(** ** Concrete runs of the state machine *)

Lemma landing_requests_only_autoland_witness :
  let m := Sample.parked (F := spec_float) Sample.origin false in
  let w := Sample.refusing spec_float in
  let m' := fst (_state_callback Sample.manual m w) in
  let w' := snd (_state_callback Sample.manual m w) in
  fly m' = false /\
  (emitted w w' [] \/
   (emitted w w' [CallSetMode 0 "AUTO.LAND"] /\
    State.mode Sample.manual <> "AUTO.LAND" /\ expired m w)).
Proof.
  apply (landing_requests_only_autoland
           (Sample.parked (F := spec_float) Sample.origin false)
           Sample.manual (Sample.refusing spec_float)).
  reflexivity.
Defined.

Lemma offboard_then_arm_in_one_update_witness :
  let m := Sample.parked (F := spec_float) Sample.origin true in
  let w := Sample.refusing spec_float in
  let m' := fst (_state_callback Sample.manual m w) in
  let w' := snd (_state_callback Sample.manual m w) in
  exists t1 t2 : rostime,
    next_reading w <= t1 /\ t1 <= t2 <= last_request m' /\
    traffic w' =
      traffic w ++ [(t1, CallSetMode 0 "OFFBOARD"); (t2, CallArming true)].
Proof.
  apply (offboard_then_arm_in_one_update
           (Sample.parked (F := spec_float) Sample.origin true)
           Sample.manual (Sample.refusing spec_float)).
  - reflexivity.
  - reflexivity.
  - discriminate.
  - reflexivity.
Defined.

(** C5 as stated fails: with every request refused, one update still
    moves [last_request] from 0 to the reading taken after the arm
    request returned. *)
Lemma refused_request_resets_timer :
  let m := Sample.parked (F := spec_float) Sample.origin true in
  let r := _state_callback Sample.manual m (Sample.refusing spec_float) in
  map snd (traffic (snd r))
    = [CallSetMode 0 "OFFBOARD"; CallArming true] /\
  last_request m = 0 /\
  last_request (fst r) = 2700000000 /\
  ~ @failed_request_keeps_timer spec_float.
Proof.
  cbv zeta. split; [vm_compute; reflexivity|]. split; [reflexivity|].
  split; [vm_compute; reflexivity|].
  intros H.
  specialize (H (Sample.parked (F := spec_float) Sample.origin true)
                Sample.manual (Sample.refusing spec_float)
                (fun k => eq_refl)).
  vm_compute in H. discriminate H.
Qed.

(* ------------------------------------------------------------------ *)
(** * The facade: construction, targets, parachute *)

Section Facade.
Context {F : Type} {num : PyNum F} {tools : MessageTools F}.

(** Everything [__init__] sends to ROS, in order. *)
Lemma init_traffic (namespace : string) (w : World F) :
  emitted w (snd (__init__ namespace w))
    ([SetNamespace namespace;
      Advertise (get_topic namespace ["setpoint_position"; "local"]) 10]
     ++ repeat (Publish new_PoseStamped) 100
     ++ [NewServiceProxy (get_topic namespace ["cmd"; "arming"]) false;
         NewServiceProxy "mavros/cmd/command" true;
         NewServiceProxy (get_topic namespace ["set_mode"]) false;
         NewSubscriber (get_topic namespace ["state"]);
         NewSubscriber (get_topic namespace ["local_position"; "pose"]);
         NewSubscriber
           (get_topic namespace ["local_position"; "velocity_body"])]).
Proof.
  unfold __init__, publish. cbv zeta. cbn [target_pose].
  repeat (rewrite snd_bind; cbv beta).
  cbn [ret snd].
  eapply emitted_eq.
  - repeat lazymatch goal with
      | |- emitted _ (snd (emit _ _)) _ => apply emitted_emit
      | |- emitted _ (snd (for_each _ _ _)) _ => apply emitted_for_each
      | |- emitted _ (snd (time_now _)) _ => apply emitted_time_now
      end.
    apply emitted_refl.
  - repeat rewrite <- app_assoc. reflexivity.
Qed.

(** The controller [__init__] returns. *)
Lemma init_fields (namespace : string) (w : World F) :
  fst (__init__ namespace w) =
  {| rate := 20;
     current_pose := new_PoseStamped;
     current_velocity := new_TwistStamped;
     target_pose := new_PoseStamped;
     UAV_state := State.empty;
     last_request := next_reading w;
     max_speed := dec 1 0;
     fly := true |}.
Proof.
  unfold __init__. cbv zeta.
  repeat (rewrite fst_bind; cbv beta).
  reflexivity.
Qed.

(** C6, amended.  [__init__] names the namespace and creates the
    setpoint publisher, then publishes its target pose (the all-zero
    pose) exactly 100 times, and only then creates the service proxies and
    the subscribers.  The count is the constant 100. *)
Theorem init_burst (namespace : string) (w : World F) :
  let m := fst (__init__ namespace w) in
  let w' := snd (__init__ namespace w) in
  target_pose m = new_PoseStamped /\
  emitted w w'
    ([SetNamespace namespace;
      Advertise (get_topic namespace ["setpoint_position"; "local"]) 10]
     ++ repeat (Publish (target_pose m)) 100
     ++ [NewServiceProxy (get_topic namespace ["cmd"; "arming"]) false;
         NewServiceProxy "mavros/cmd/command" true;
         NewServiceProxy (get_topic namespace ["set_mode"]) false;
         NewSubscriber (get_topic namespace ["state"]);
         NewSubscriber (get_topic namespace ["local_position"; "pose"]);
         NewSubscriber
           (get_topic namespace ["local_position"; "velocity_body"])]).
Proof.
  cbv zeta. rewrite init_fields. cbn [target_pose].
  split; [reflexivity | apply init_traffic].
Qed.

(** C7.  [set_target_pos] makes the target the pose built from the new
    point and the yaw read off the old target orientation;
    [set_target_yaw] the pose built from the old target position and the
    new yaw; [set_target_pose] the pose it is given.  None of them
    changes another field or touches the world, and the next pose update
    publishes one setpoint, computed from the new target. *)
Theorem target_setters_frame (m : Mav F) (w : World F)
    (pose : PoseStamped.t F) (pos : Point.t F) (yaw : F) :
  let old := PoseStamped.pose (target_pose m) in
  (let r := handle (DoSetTargetPos pos) m w in
   snd r = w /\ same_but_target m (fst r) /\
   target_pose (fst r) =
     create_setpoint_message_pos_yaw pos
       (orientation_to_yaw (Pose.orientation old))) /\
  (let r := handle (DoSetTargetYaw yaw) m w in
   snd r = w /\ same_but_target m (fst r) /\
   target_pose (fst r) =
     create_setpoint_message_pos_yaw (Pose.position old) yaw) /\
  (let r := handle (DoSetTargetPose pose) m w in
   snd r = w /\ same_but_target m (fst r) /\ target_pose (fst r) = pose) /\
  (forall topic : PoseStamped.t F,
   exists t,
     traffic (snd (run [DoSetTargetPos pos; OnLocalPosition topic] m w)) =
     traffic w ++
       [(t, Publish (distance_limited_target
                       (with_current_pose topic (set_target_pos pos m))))]).
Proof.
  cbv zeta. unfold same_but_target.
  repeat split; try reflexivity.
  intros topic. eexists.
  cbn [run handle]. unfold _local_position_callback, _publish_target_pose,
    publish. run_model. reflexivity.
Qed.

(** C10.  [deploy_parachute] sends exactly one command, number 185 with
    first parameter 1, writes one line on the console, and leaves the
    controller as it was. *)
Theorem deploy_parachute_one_command (m : Mav F) (w : World F) :
  let r := handle DoDeployParachute m w in
  fst r = m /\
  emitted w (snd r) [CallCommand 185 1] /\
  stdout (snd r) = stdout w ++ ["Deploing parachute..."].
Proof.
  cbv zeta. cbn [handle]. unfold deploy_parachute. run_model.
  split; [reflexivity|]. split; [|reflexivity].
  eexists. split; reflexivity.
Qed.

End Facade.

(** C6 as stated fails: the length of the burst cannot be chosen.  No
    namespace and no world make [__init__] publish anything but 100
    setpoints. *)
Lemma burst_count_is_fixed : ~ @burst_count_configurable spec_float binary64.
Proof.
  intros H. destruct (H 0%nat) as (namespace & w & es & He & Hlen).
  pose proof (init_traffic namespace w) as Hi.
  rewrite (emitted_unique _ _ _ _ He Hi) in Hlen.
  vm_compute in Hlen. discriminate Hlen.
Qed.

(* ------------------------------------------------------------------ *)
(** * The arrival detector on doubles *)

Module B64Facts.

Lemma round_aux_in_domain (m e : Z) (l : location) :
  B64.in_domain (binary_round_aux B64.prec B64.emax false m e l).
Proof.
  unfold binary_round_aux.
  destruct (shr_fexp B64.prec B64.emax m e l) as [mrs e'].
  destruct (shr_fexp B64.prec B64.emax _ e' loc_Exact) as [mrs' e''].
  destruct (shr_m mrs'); [exact I | | exact I].
  destruct (Z.leb e'' (B64.emax - B64.prec)); exact I.
Qed.

(** A square is never below zero. *)
Lemma square_in_domain (x : spec_float) :
  B64.in_domain (SFmul B64.prec B64.emax x x).
Proof.
  destruct x as [s|s| |s m e]; cbn [SFmul]; try exact I.
  - destruct s; exact I.
  - destruct s; exact I.
  - destruct s; cbn [xorb]; apply round_aux_in_domain.
Qed.

(** Nor is the sum of two numbers that are not. *)
Lemma sum_in_domain (x y : spec_float) :
  B64.in_domain x -> B64.in_domain y ->
  B64.in_domain (SFadd B64.prec B64.emax x y).
Proof.
  destruct x as [[]|[]| |[] mx ex]; destruct y as [[]|[]| |[] my ey];
    cbn [B64.in_domain]; intros Hx Hy; try contradiction; try exact I.
  unfold SFadd, binary_normalize. cbn [cond_Zopp Z.add].
  unfold binary_round.
  destruct (shl_align _ _ _) as [mz ez].
  apply round_aux_in_domain.
Qed.

Lemma checked_sqrt_in_domain (x : spec_float) :
  B64.in_domain x ->
  B64.checked_sqrt x = Some (SFsqrt B64.prec B64.emax x).
Proof.
  destruct x as [[]|[]| |[] m e]; cbn; intros H;
    try contradiction; reflexivity.
Qed.

(** [math.sqrt] never raises on a sum of three squares. *)
Lemma math_sqrt_sum_of_squares (x y z : spec_float) :
  math_sqrt (x * x + y * y + z * z)%num = Some (euclidean_norm x y z).
Proof.
  cbn [math_sqrt binary64 num_add num_mul]. unfold euclidean_norm.
  apply checked_sqrt_in_domain.
  repeat apply sum_in_domain; apply square_in_domain.
Qed.

(** Every comparison with NaN is false. *)
Lemma nan_ltb (t : spec_float) : (S754_nan <? t)%num = false.
Proof. reflexivity. Qed.

End B64Facts.

Section Arrival.
Context {tools : MessageTools spec_float}.

Lemma get_pos_error_binary64 (m : Mav spec_float) :
  get_pos_error m = Some (position_error m).
Proof. apply B64Facts.math_sqrt_sum_of_squares. Qed.

Lemma get_velocity_abs_binary64 (m : Mav spec_float) :
  get_velocity_abs m = Some (linear_speed m).
Proof. apply B64Facts.math_sqrt_sum_of_squares. Qed.

Lemma get_ang_vel_abs_binary64 (m : Mav spec_float) :
  get_ang_vel_abs m = Some (angular_speed m).
Proof. apply B64Facts.math_sqrt_sum_of_squares. Qed.

Lemma has_arrived_binary64 (m : Mav spec_float) :
  has_arrived m =
  Some ((position_error m <? dec 5 (-1))%num
        && (yaw_error m <? dec 1 (-1))%num
        && (linear_speed m <? dec 2 (-1))%num
        && (angular_speed m <? dec 5 (-2))%num).
Proof.
  unfold has_arrived. cbv zeta.
  rewrite get_pos_error_binary64, get_velocity_abs_binary64,
    get_ang_vel_abs_binary64.
  change (get_yaw_error m) with (yaw_error m).
  destruct (_ && _ && _ && _); reflexivity.
Qed.

(** C2.  On doubles [has_arrived] always returns, and it returns [True]
    exactly when the position error is below 0.5, the yaw error below
    0.1, the linear speed below 0.2 and the angular speed below 0.05, all
    four at once. *)
Theorem has_arrived_iff (m : Mav spec_float) :
  exists b : bool,
    has_arrived m = Some b /\ (b = true <-> within_tolerance m).
Proof.
  eexists. split; [apply has_arrived_binary64|].
  unfold within_tolerance. rewrite !andb_true_iff. tauto.
Qed.

(** C8.  When one of the four quantities [has_arrived] computes is NaN,
    [has_arrived] returns [False]. *)
Theorem has_arrived_nan (m : Mav spec_float) :
  get_pos_error m = Some S754_nan \/
  get_yaw_error m = S754_nan \/
  get_velocity_abs m = Some S754_nan \/
  get_ang_vel_abs m = Some S754_nan ->
  has_arrived m = Some false.
Proof.
  intros H. rewrite has_arrived_binary64.
  rewrite get_pos_error_binary64, get_velocity_abs_binary64,
    get_ang_vel_abs_binary64 in H.
  change (get_yaw_error m) with (yaw_error m) in H.
  assert (Hsome : forall a b : spec_float, Some a = Some b -> a = b)
    by (intros a b E; congruence).
  destruct H as [H|[H|[H|H]]];
    try apply Hsome in H;
    rewrite H, B64Facts.nan_ltb, ?andb_false_r; reflexivity.
Qed.

End Arrival.

(** A controller whose target has NaN for its [x]. *)
Lemma has_arrived_nan_witness :
  has_arrived (tools := plain_tools)
    (Sample.parked (Point.mk S754_nan (dec 0 0) (dec 0 0)) true)
  = Some false.
Proof.
  apply (has_arrived_nan (tools := plain_tools)
           (Sample.parked (Point.mk S754_nan (dec 0 0) (dec 0 0)) true)).
  left. vm_compute. reflexivity.
Defined.

(* ------------------------------------------------------------------ *)
(** * The setpoint limiter in exact arithmetic *)

Section Limiter.
Context {tools : MessageTools R}.
Local Open Scope R_scope.

Lemma distance_nonneg (p q : Point.t R) : 0 <= distance p q.
Proof. unfold distance. apply sqrt_pos. Qed.

Lemma distance_square (p q : Point.t R) :
  distance p q * distance p q =
  (Point.x q - Point.x p) * (Point.x q - Point.x p)
  + (Point.y q - Point.y p) * (Point.y q - Point.y p)
  + (Point.z q - Point.z p) * (Point.z q - Point.z p).
Proof.
  unfold distance. apply sqrt_sqrt.
  repeat apply Rplus_le_le_0_compat; apply Rle_0_sqr.
Qed.

(** Going the fraction [k] of the way covers [k] times the distance. *)
Lemma distance_towards (p q : Point.t R) (k : R) :
  0 <= k -> distance p (towards p q k) = k * distance p q.
Proof.
  intros Hk. pose proof (distance_nonneg p q) as Hd.
  rewrite <- (sqrt_square (k * distance p q)) by nra.
  unfold distance at 1. f_equal. cbn [towards Point.x Point.y Point.z].
  transitivity (k * k * (distance p q * distance p q)); [|ring].
  rewrite distance_square. ring.
Qed.

(** The norm the limiter computes is the distance to the target. *)
Lemma limiter_norm (m : Mav R) :
  linalg_norm
    (arr_sub (point_to_arr (Pose.position (PoseStamped.pose (target_pose m))))
             (point_to_arr
                (Pose.position (PoseStamped.pose (current_pose m)))))
  = distance (Pose.position (PoseStamped.pose (current_pose m)))
             (Pose.position (PoseStamped.pose (target_pose m))).
Proof. reflexivity. Qed.

Lemma limiter_branches (m : Mav R) :
  let current := Pose.position (PoseStamped.pose (current_pose m)) in
  let target := Pose.position (PoseStamped.pose (target_pose m)) in
  let dist := distance current target in
  distance_limited_target m =
  if Rlt_dec dist (max_speed m) then target_pose m
  else create_setpoint_message_pos_ori
         (arr_to_point
            (arr_add (point_to_arr current)
               (arr_div (arr_sub (point_to_arr target) (point_to_arr current))
                        (dist / max_speed m))))
         (Pose.orientation (PoseStamped.pose (target_pose m))).
Proof.
  cbv zeta. unfold distance_limited_target. cbv zeta. rewrite limiter_norm.
  cbn [num_ltb exact num_div]. unfold Exact.ltb.
  destruct (Rlt_dec _ _); reflexivity.
Qed.

(** C1.  In exact arithmetic and with a positive [max_speed]: when the
    target is nearer than [max_speed] (in particular when it is reached)
    the limiter returns the target pose itself; otherwise it returns the
    pose made of the target orientation and of the point
    [current + diff * (max_speed / dist)], which lies at distance
    [max_speed] from the current position, in the direction of the
    target. *)
Theorem distance_limited_target_spec (m : Mav R) :
  0 < max_speed m ->
  let current := Pose.position (PoseStamped.pose (current_pose m)) in
  let target := Pose.position (PoseStamped.pose (target_pose m)) in
  let orientation := Pose.orientation (PoseStamped.pose (target_pose m)) in
  let dist := distance current target in
  let maxStep := max_speed m in
  (dist < maxStep -> distance_limited_target m = target_pose m) /\
  (dist = 0 -> distance_limited_target m = target_pose m) /\
  (maxStep <= dist ->
     let clipped := towards current target (maxStep / dist) in
     distance_limited_target m =
       create_setpoint_message_pos_ori clipped orientation /\
     distance current clipped = maxStep /\
     direction current clipped = direction current target).
Proof.
  intros Hmax current target orientation dist maxStep.
  assert (Hm : 0 < maxStep) by exact Hmax.
  pose proof (limiter_branches m) as Hbranch. cbv zeta in Hbranch.
  fold current target dist maxStep orientation in Hbranch.
  split; [|split].
  - intros Hlt. rewrite Hbranch.
    destruct (Rlt_dec dist maxStep); [reflexivity|lra].
  - intros Hz. rewrite Hbranch.
    destruct (Rlt_dec dist maxStep); [reflexivity|lra].
  - intros Hge clipped.
    assert (Hd : 0 < dist) by lra.
    assert (Hk : 0 < maxStep / dist) by (apply Rdiv_lt_0_compat; assumption).
    assert (Hlen : distance current clipped = maxStep).
    { unfold clipped. rewrite distance_towards by lra. fold dist.
      field. lra. }
    split; [|split].
    + rewrite Hbranch. destruct (Rlt_dec dist maxStep); [lra|].
      f_equal. unfold clipped, towards, arr_to_point, arr_add, arr_div,
        arr_sub, point_to_arr.
      cbn [Arr3.a0 Arr3.a1 Arr3.a2 num_add num_sub num_div exact].
      f_equal; field; split; lra.
    + exact Hlen.
    + unfold direction. rewrite Hlen. fold dist.
      unfold clipped, towards. cbn [Point.x Point.y Point.z].
      f_equal; field; split; lra.
Qed.

End Limiter.

(** The target at (3, 4, 0), five times [max_speed] away. *)
Lemma distance_limited_target_spec_witness :
  let m := Sample.parked (F := R) (Point.mk 3 4 0)%R true in
  let current := Pose.position (PoseStamped.pose (current_pose m)) in
  let target := Pose.position (PoseStamped.pose (target_pose m)) in
  let orientation := Pose.orientation (PoseStamped.pose (target_pose m)) in
  let dist := distance current target in
  let maxStep := max_speed m in
  ((dist < maxStep)%R ->
   distance_limited_target (tools := plain_tools) m = target_pose m) /\
  (dist = 0%R ->
   distance_limited_target (tools := plain_tools) m = target_pose m) /\
  ((maxStep <= dist)%R ->
     let clipped := towards current target (maxStep / dist) in
     distance_limited_target (tools := plain_tools) m =
       create_setpoint_message_pos_ori (MessageTools := plain_tools)
         clipped orientation /\
     distance current clipped = maxStep /\
     direction current clipped = direction current target).
Proof.
  apply (distance_limited_target_spec (tools := plain_tools)
           (Sample.parked (F := R) (Point.mk 3 4 0)%R true)).
  cbn. unfold Exact.of_dec. cbn. lra.
Defined.

(* ------------------------------------------------------------------ *)
(** * Further properties of the state machine and of runs *)

Section MoreStateMachine.
Context {F : Type} {num : PyNum F} {tools : MessageTools F}.

Lemma app_eq_self {A : Type} (l x : list A) : l ++ x = l -> x = [].
Proof.
  intros H. rewrite <- (app_nil_r l) in H at 2. now apply app_inv_head in H.
Qed.

(** X1. A state update is silent exactly when the window is not over or the
    vehicle already reports the wanted state. *)
Theorem silent_update_iff (m : Mav F) (topic : State.t) (w : World F) :
  let w' := snd (_state_callback topic m w) in
  traffic w' = traffic w <->
  (~ expired m w \/ wanted_state_reported m topic).
Proof.
  cbv zeta. unfold wanted_state_reported.
  destruct (state_callback_reaction m topic w) as (r & Ht & Hj & _).
  rewrite Ht. split.
  - intros H. apply app_eq_self in H.
    destruct r; cbn in H; try discriminate. cbn in Hj. tauto.
  - intros H. destruct r as [|cm t|t|t1 t2]; cbn in Hj |- *.
    + apply app_nil_r.
    + exfalso. destruct Hj as (He & _ & _ & Hne & Hc).
      destruct H as [H|[[Hf Hm]|(Hf & Hm & Ha)]];
        destruct Hc as [[Hf' ->]|(Hf' & -> & Ha')];
        try contradiction; congruence.
    + exfalso. destruct Hj as (He & _ & _ & Hf' & Hm' & Ha').
      destruct H as [H|[[Hf Hm]|(Hf & Hm & Ha)]];
        try contradiction; congruence.
    + exfalso. destruct Hj as (He & _ & _ & _ & Hf' & Hm' & Ha').
      destruct H as [H|[[Hf Hm]|(Hf & Hm & Ha)]];
        try contradiction; congruence.
Qed.

(** X2. With the fly flag on and the window over, a state update asks for
    exactly what is missing. *)
Theorem offboard_requests_what_is_missing (m : Mav F) (topic : State.t)
    (w : World F) :
  fly m = true ->
  expired m w ->
  emitted w (snd (_state_callback topic m w)) (missing_for_offboard topic).
Proof.
  intros Hf He. unfold missing_for_offboard.
  destruct (state_callback_reaction m topic w) as (r & Ht & Hj & _).
  exists (requests_of r). split; [exact Ht|].
  destruct r as [|cm t|t|t1 t2]; cbn in Hj |- *.
  - destruct Hj as (_ & [Hn|[[Hf' _]|(_ & Hm & Ha)]]);
      [contradiction | congruence |].
    rewrite Hm, Ha. reflexivity.
  - destruct Hj as (_ & _ & _ & Hne & [[Hf' _]|(_ & -> & Ha)]);
      [congruence|].
    rewrite Ha. apply String.eqb_neq in Hne. rewrite Hne. reflexivity.
  - destruct Hj as (_ & _ & _ & _ & Hm & Ha). rewrite Hm, Ha. reflexivity.
  - destruct Hj as (_ & _ & _ & _ & _ & Hm & Ha).
    apply String.eqb_neq in Hm. rewrite Hm, Ha. reflexivity.
Qed.

(** X3. A state update stores the four reported fields and, apart from
    [last_request], touches nothing else. *)
Theorem state_callback_frame (m : Mav F) (topic : State.t) (w : World F) :
  let m' := fst (_state_callback topic m w) in
  UAV_state m' =
    State.mk (State.connected topic) (State.armed topic)
             (State.guided topic) (State.mode topic) /\
  fly m' = fly m /\ target_pose m' = target_pose m /\
  current_pose m' = current_pose m /\
  current_velocity m' = current_velocity m /\
  max_speed m' = max_speed m /\ rate m' = rate m.
Proof.
  cbv zeta.
  destruct (state_callback_reaction m topic w) as (r & _ & _ & Hm & _).
  rewrite Hm. repeat split.
Qed.

Lemma handle_counts (c : Call F) (m : Mav F) (w : World F) :
  exists new, traffic (snd (handle c m w)) = traffic w ++ new /\
    count_in is_setpoint new = (if is_pose_update c then 1 else 0)%nat /\
    count_in is_command new = (if is_parachute_call c then 1 else 0)%nat /\
    (is_state_update c = false -> count_in is_request new = 0%nat).
Proof.
  destruct c as [topic|topic|topic|pose|pos|yaw| | |]; cbn [handle];
    try (exists []; rewrite app_nil_r; repeat split; reflexivity).
  - destruct (state_callback_reaction m topic w) as (r & Ht & _).
    exists (requests_of r). split; [exact Ht|].
    destruct r; cbn; repeat split; try reflexivity; discriminate.
  - eexists. split.
    + unfold _local_position_callback, _publish_target_pose, publish.
      run_model. reflexivity.
    + repeat split; reflexivity.
  - eexists. split.
    + unfold deploy_parachute. run_model. reflexivity.
    + repeat split; reflexivity.
Qed.

Lemma count_in_app (kind : Event F -> bool) (l1 l2 : list (rostime * Event F)) :
  count_in kind (l1 ++ l2) = (count_in kind l1 + count_in kind l2)%nat.
Proof. unfold count_in. now rewrite filter_app, length_app. Qed.

Lemma run_counts (calls : list (Call F)) : forall (m : Mav F) (w : World F),
  exists new, traffic (snd (run calls m w)) = traffic w ++ new /\
    count_in is_setpoint new = List.length (filter is_pose_update calls) /\
    count_in is_command new = List.length (filter is_parachute_call calls) /\
    (forallb (fun c => negb (is_state_update c)) calls = true ->
     count_in is_request new = 0%nat).
Proof.
  induction calls as [|c rest IH]; intros m w; cbn [run].
  - exists []. rewrite app_nil_r. repeat split.
  - unfold bind. destruct (handle c m w) as [m1 w1] eqn:Hc.
    destruct (handle_counts c m w) as (n1 & Ht1 & Hs1 & Hc1 & Hr1).
    rewrite Hc in Ht1. cbn [snd] in Ht1.
    destruct (IH m1 w1) as (n2 & Ht2 & Hs2 & Hc2 & Hr2).
    exists (n1 ++ n2). split; [rewrite Ht2, Ht1; symmetry; apply app_assoc|].
    rewrite !count_in_app, Hs1, Hc1, Hs2, Hc2. cbn [filter forallb].
    split; [|split].
    + destruct (is_pose_update c); reflexivity.
    + destruct (is_parachute_call c); reflexivity.
    + intros Hall. apply andb_true_iff in Hall. destruct Hall as [Hn Hall].
      apply negb_true_iff in Hn. rewrite (Hr1 Hn), (Hr2 Hall). reflexivity.
Qed.

(** X4. Setpoints are published by pose updates, one each, and by nothing
    else. *)
Theorem setpoints_follow_pose_updates (calls : list (Call F)) (m : Mav F)
    (w : World F) :
  exists new, traffic (snd (run calls m w)) = traffic w ++ new /\
    count_in is_setpoint new = List.length (filter is_pose_update calls).
Proof.
  destruct (run_counts calls m w) as (new & Ht & Hs & _).
  exists new. auto.
Qed.

(** X5. Every call of [deploy_parachute] sends its command: the throttle does
    not apply to it. *)
Theorem commands_follow_parachute_calls (calls : list (Call F)) (m : Mav F)
    (w : World F) :
  exists new, traffic (snd (run calls m w)) = traffic w ++ new /\
    count_in is_command new = List.length (filter is_parachute_call calls).
Proof.
  destruct (run_counts calls m w) as (new & Ht & _ & Hc & _).
  exists new. auto.
Qed.

(** X6. Without a vehicle-state update nothing asks for a mode or for
    arming: [land], [takeoff], the target setters, the parachute, pose and
    velocity updates never do. *)
Theorem requests_need_state_updates (calls : list (Call F)) (m : Mav F)
    (w : World F) :
  forallb (fun c => negb (is_state_update c)) calls = true ->
  exists new, traffic (snd (run calls m w)) = traffic w ++ new /\
    count_in is_request new = 0%nat.
Proof.
  intros Hall. destruct (run_counts calls m w) as (new & Ht & _ & _ & Hr).
  exists new. auto.
Qed.

Lemma handle_intent (c : Call F) (m : Mav F) (w : World F) :
  let m' := fst (handle c m w) in
  fly m' = final_intent [c] (fly m) /\
  max_speed m' = max_speed m /\ rate m' = rate m.
Proof.
  cbv zeta. destruct c as [topic|topic|topic|pose|pos|yaw| | |]; cbn [handle];
    try (repeat split; reflexivity).
  destruct (state_callback_reaction m topic w) as (r & _ & _ & Hm & _).
  rewrite Hm. repeat split.
Qed.

Lemma final_intent_cons (c : Call F) (rest : list (Call F)) (b : bool) :
  final_intent (c :: rest) b = final_intent rest (final_intent [c] b).
Proof. reflexivity. Qed.

(** X7. Over any sequence of calls the fly flag is what the last [land] or
    [takeoff] made it, and [max_speed] and [rate] never change. *)
Theorem run_keeps_settings (calls : list (Call F)) (m : Mav F) (w : World F) :
  let m' := fst (run calls m w) in
  fly m' = final_intent calls (fly m) /\
  max_speed m' = max_speed m /\ rate m' = rate m.
Proof.
  cbv zeta. revert m w.
  induction calls as [|c rest IH]; intros m w; cbn [run].
  - repeat split.
  - unfold bind. destruct (handle c m w) as [m1 w1] eqn:Hc.
    pose proof (handle_intent c m w) as H. cbv zeta in H.
    rewrite Hc in H. cbn [fst] in H. destruct H as (Hf & Hs & Hr).
    destruct (IH m1 w1) as (Hf' & Hs' & Hr').
    rewrite final_intent_cons, Hf', Hs', Hr', Hf, Hs, Hr. repeat split.
Qed.

(** The clock never runs backwards while a call is handled. *)
Lemma handle_clock (c : Call F) (m : Mav F) (w : World F) :
  clock w <= clock (snd (handle c m w)).
Proof.
  destruct c as [topic|topic|topic|pose|pos|yaw| | |]; cbn [handle].
  1: { destruct (state_callback_reaction m topic w)
         as (r & _ & _ & _ & _ & _ & H). exact H. }
  all: unfold _local_position_callback, _publish_target_pose, publish,
         deploy_parachute; run_model; lia.
Qed.

Lemma handle_not_ahead (c : Call F) (m : Mav F) (w : World F) :
  last_request m <= clock w ->
  last_request m <= last_request (fst (handle c m w)) /\
  last_request (fst (handle c m w)) <= clock (snd (handle c m w)).
Proof.
  intros H. pose proof (handle_clock c m w) as Hc.
  destruct (handle_well_spaced c m w) as (new & _ & Hle & _).
  split; [exact Hle|]. clear Hle.
  destruct c as [topic|topic|topic|pose|pos|yaw| | |]; cbn [handle] in *.
  1: { destruct (state_callback_reaction m topic w) as (r & _ & Hj & _).
       destruct r; cbn in Hj.
       - destruct Hj as [-> _]. lia.
       - destruct Hj as (_ & _ & -> & _). lia.
       - destruct Hj as (_ & _ & -> & _). lia.
       - destruct Hj as (_ & _ & _ & -> & _). lia. }
  all: revert Hc;
       unfold _local_position_callback, _publish_target_pose, publish,
         deploy_parachute; run_model; lia.
Qed.

Lemma run_not_ahead (calls : list (Call F)) : forall (m : Mav F) (w : World F),
  last_request m <= clock w ->
  last_request m <= last_request (fst (run calls m w)) /\
  last_request (fst (run calls m w)) <= clock (snd (run calls m w)).
Proof.
  induction calls as [|c rest IH]; intros m w H; cbn [run].
  - cbn. lia.
  - unfold bind. destruct (handle c m w) as [m1 w1] eqn:Hc.
    pose proof (handle_not_ahead c m w H) as H1. rewrite Hc in H1.
    cbn [fst snd] in H1. destruct (IH m1 w1 (proj2 H1)) as [H2 H3].
    split; lia.
Qed.

Lemma clock_emit (e : Event F) (x : World F) :
  clock x <= clock (snd (emit e x)).
Proof. unfold emit, tick, record, bind. cbn. delays. lia. Qed.

Lemma clock_for_each {A : Type} (e : Event F) (l : list A) :
  forall x : World F, clock x <= clock (snd (for_each l (fun _ => emit e) x)).
Proof.
  induction l as [|a l IH]; intros x; cbn [for_each]; [cbn; lia|].
  rewrite snd_bind. pose proof (clock_emit e x). specialize (IH (snd (emit e x))).
  lia.
Qed.

Lemma init_not_ahead (namespace : string) (w : World F) :
  last_request (fst (__init__ namespace w))
  <= clock (snd (__init__ namespace w)).
Proof.
  rewrite init_fields. cbn [last_request].
  unfold __init__, publish. cbv zeta.
  repeat (rewrite snd_bind; cbv beta). cbn [ret snd].
  repeat lazymatch goal with
    | |- _ <= clock (snd (emit ?e ?x)) =>
        apply Z.le_trans with (clock x); [|apply clock_emit]
    | |- _ <= clock (snd (for_each ?l _ ?x)) =>
        apply Z.le_trans with (clock x); [|apply clock_for_each]
    end.
  unfold time_now, tick, bind, next_reading. cbn. lia.
Qed.

(** X8. From construction on, whatever calls follow, [last_request] never
    moves backwards and never lies ahead of the clock. *)
Theorem last_request_never_ahead (namespace : string) (w : World F)
    (calls : list (Call F)) :
  let m0 := fst (__init__ namespace w) in
  let w0 := snd (__init__ namespace w) in
  let m' := fst (run calls m0 w0) in
  let w' := snd (run calls m0 w0) in
  last_request m0 <= last_request m' /\ last_request m' <= clock w'.
Proof.
  cbv zeta. apply run_not_ahead. apply init_not_ahead.
Qed.
End MoreStateMachine.

Lemma offboard_requests_what_is_missing_witness :
  emitted (Sample.refusing spec_float)
    (snd (_state_callback Sample.manual
            (Sample.parked (F := spec_float) Sample.origin true)
            (Sample.refusing spec_float)))
    (missing_for_offboard Sample.manual).
Proof.
  apply (offboard_requests_what_is_missing
           (Sample.parked (F := spec_float) Sample.origin true)
           Sample.manual (Sample.refusing spec_float)).
  - reflexivity.
  - reflexivity.
Defined.

Lemma requests_need_state_updates_witness :
  let calls :=
    [DoLand; OnLocalPosition (new_PoseStamped (F := spec_float));
     DoTakeoff; DoDeployParachute] in
  let m := Sample.parked (F := spec_float) Sample.origin true in
  let w := Sample.refusing spec_float in
  exists new, traffic (snd (run (tools := plain_tools) calls m w))
              = traffic w ++ new /\
    count_in is_request new = 0%nat.
Proof.
  apply (requests_need_state_updates (tools := plain_tools)
           [DoLand; OnLocalPosition (new_PoseStamped (F := spec_float));
            DoTakeoff; DoDeployParachute]
           (Sample.parked (F := spec_float) Sample.origin true)
           (Sample.refusing spec_float)).
  reflexivity.
Defined.

(* ------------------------------------------------------------------ *)
(** * Further properties of the arrival detector and of the limiter *)

Module MoreB64Facts.

Lemma sqrt_in_domain (x : spec_float) :
  B64.in_domain x -> B64.in_domain (SFsqrt B64.prec B64.emax x).
Proof.
  destruct x as [[]|[]| |[] m e]; cbn [B64.in_domain SFsqrt];
    intros H; try contradiction; try exact I.
  destruct (SFsqrt_core_binary B64.prec B64.emax (Z.pos m) e) as [[mz ez] lz].
  apply B64Facts.round_aux_in_domain.
Qed.

Lemma in_domain_not_below_zero (x : spec_float) :
  B64.in_domain x -> (x <? dec 0 0)%num = false.
Proof.
  destruct x as [[]|[]| |[] m e]; cbn [B64.in_domain];
    intros H; try contradiction; reflexivity.
Qed.

Lemma norm_not_below_zero (x y z : spec_float) :
  (euclidean_norm x y z <? dec 0 0)%num = false.
Proof.
  apply in_domain_not_below_zero. unfold euclidean_norm.
  cbn [np_sqrt binary64 num_add num_mul]. apply sqrt_in_domain.
  repeat apply B64Facts.sum_in_domain; apply B64Facts.square_in_domain.
Qed.

Lemma sub_nan_l (y : spec_float) : SFsub B64.prec B64.emax S754_nan y = S754_nan.
Proof. reflexivity. Qed.
Lemma sub_nan_r (x : spec_float) : SFsub B64.prec B64.emax x S754_nan = S754_nan.
Proof. now destruct x. Qed.
Lemma add_nan_r (x : spec_float) : SFadd B64.prec B64.emax x S754_nan = S754_nan.
Proof. now destruct x. Qed.
Lemma div_nan_r (x : spec_float) : SFdiv B64.prec B64.emax x S754_nan = S754_nan.
Proof. now destruct x. Qed.

End MoreB64Facts.

Section B64Extras.
Context {tools : MessageTools spec_float}.

(** X9. On doubles the three norms always come out, and none is below
    zero. *)
Theorem norms_never_raise (m : Mav spec_float) :
  exists d v a : spec_float,
    get_pos_error m = Some d /\ get_velocity_abs m = Some v /\
    get_ang_vel_abs m = Some a /\
    (d <? dec 0 0)%num = false /\ (v <? dec 0 0)%num = false /\
    (a <? dec 0 0)%num = false.
Proof.
  exists (position_error m), (linear_speed m), (angular_speed m).
  rewrite get_pos_error_binary64, get_velocity_abs_binary64,
    get_ang_vel_abs_binary64.
  repeat split; apply MoreB64Facts.norm_not_below_zero.
Qed.

Lemma norm_nan (m : Mav spec_float) :
  has_nan (Pose.position (PoseStamped.pose (current_pose m))) \/
  has_nan (Pose.position (PoseStamped.pose (target_pose m))) ->
  linalg_norm
    (arr_sub (point_to_arr (Pose.position (PoseStamped.pose (target_pose m))))
             (point_to_arr (Pose.position (PoseStamped.pose (current_pose m)))))
  = S754_nan.
Proof.
  unfold has_nan, linalg_norm, arr_dot, arr_sub, point_to_arr.
  cbn [Arr3.a0 Arr3.a1 Arr3.a2 num_sub num_add num_mul np_sqrt binary64].
  intros [[H|[H|H]]|[H|[H|H]]]; rewrite H;
    rewrite ?MoreB64Facts.sub_nan_l, ?MoreB64Facts.sub_nan_r;
    cbn [SFmul]; rewrite ?MoreB64Facts.add_nan_r; cbn [SFadd SFsqrt];
    reflexivity.
Qed.

(** X10. A NaN among the coordinates of the current or of the target position
    makes the limiter build its setpoint at the point (NaN, NaN, NaN),
    with the target orientation: the target pose is not passed on. *)
Theorem distance_limited_target_nan (m : Mav spec_float) :
  has_nan (Pose.position (PoseStamped.pose (current_pose m))) \/
  has_nan (Pose.position (PoseStamped.pose (target_pose m))) ->
  distance_limited_target m =
  create_setpoint_message_pos_ori nan_point
    (Pose.orientation (PoseStamped.pose (target_pose m))).
Proof.
  intros H. unfold distance_limited_target. cbv zeta.
  rewrite (norm_nan m H).
  cbn [num_ltb num_div binary64 SFltb SFcompare SFdiv].
  unfold arr_to_point, arr_add, arr_div.
  cbn [Arr3.a0 Arr3.a1 Arr3.a2 num_add num_div binary64].
  rewrite !MoreB64Facts.div_nan_r, !MoreB64Facts.add_nan_r. reflexivity.
Qed.
End B64Extras.

Lemma distance_limited_target_nan_witness :
  distance_limited_target (tools := plain_tools)
    (Sample.parked (Point.mk S754_nan (dec 0 0) (dec 0 0)) true)
  = create_setpoint_message_pos_ori (MessageTools := plain_tools) nan_point
      Sample.level.
Proof.
  apply (distance_limited_target_nan (tools := plain_tools)
           (Sample.parked (Point.mk S754_nan (dec 0 0) (dec 0 0)) true)).
  right. left. reflexivity.
Defined.

Section ExactExtras.
Context {tools : MessageTools R}.
Local Open Scope R_scope.

Lemma distance_rest (p q : Point.t R) (k : R) :
  k <= 1 -> distance (towards p q k) q = (1 - k) * distance p q.
Proof.
  intros Hk. pose proof (distance_nonneg p q) as Hd.
  rewrite <- (sqrt_square ((1 - k) * distance p q)) by nra.
  unfold distance at 1. f_equal. cbn [towards Point.x Point.y Point.z].
  transitivity ((1 - k) * (1 - k) * (distance p q * distance p q)); [|ring].
  rewrite distance_square. ring.
Qed.

(** X11. When the target is at least [max_speed] away, the setpoint is built
    at a point exactly [max_speed] nearer to the target. *)
Theorem limiter_progress (m : Mav R) :
  0 < max_speed m ->
  let current := Pose.position (PoseStamped.pose (current_pose m)) in
  let target := Pose.position (PoseStamped.pose (target_pose m)) in
  let dist := distance current target in
  max_speed m <= dist ->
  exists p : Point.t R,
    distance_limited_target m =
      create_setpoint_message_pos_ori p
        (Pose.orientation (PoseStamped.pose (target_pose m))) /\
    distance p target = dist - max_speed m.
Proof.
  intros Hm current target dist Hge.
  pose proof (limiter_branches m) as Hb. cbv zeta in Hb.
  fold current target dist in Hb.
  destruct (Rlt_dec dist (max_speed m)) as [Hlt|_]; [lra|].
  assert (Hd : 0 < dist) by lra.
  eexists. split; [exact Hb|].
  replace (arr_to_point _) with (towards current target (max_speed m / dist)).
  - rewrite distance_rest.
    + fold dist. field. lra.
    + apply Rmult_le_reg_r with dist; [exact Hd|]. unfold Rdiv.
      rewrite Rmult_assoc, Rinv_l by lra. lra.
  - unfold towards, arr_to_point, arr_add, arr_div, arr_sub, point_to_arr.
    cbn [Arr3.a0 Arr3.a1 Arr3.a2 num_add num_sub num_div exact].
    f_equal; field; split; lra.
Qed.

Lemma exact_sqrt_sum_of_squares (x y z : R) :
  math_sqrt (x * x + y * y + z * z)%num = Some (sqrt (x * x + y * y + z * z)).
Proof.
  cbn [math_sqrt exact num_add num_mul]. unfold Exact.checked_sqrt.
  destruct (Rlt_dec _ 0) as [H|H]; [|reflexivity].
  exfalso. assert (0 <= x * x + y * y + z * z)
    by (repeat apply Rplus_le_le_0_compat; apply Rle_0_sqr).
  lra.
Qed.

Lemma exact_ltb_true (x y : R) : Exact.ltb x y = true <-> x < y.
Proof. unfold Exact.ltb. destruct (Rlt_dec x y); split; intros; auto; discriminate. Qed.

Lemma exact_thresholds :
  dec 5 (-1) = 1 / 2 /\ dec 1 (-1) = 1 / 10 /\ dec 2 (-1) = 1 / 5 /\
  dec 5 (-2) = 1 / 20.
Proof.
  cbn. unfold Exact.of_dec, powerRZ.
  change (Pos.to_nat 1) with 1%nat. change (Pos.to_nat 2) with 2%nat.
  cbn [pow]. repeat split; lra.
Qed.

(** What [has_arrived] returns in exact arithmetic. *)
Lemma has_arrived_exact_value (m : Mav R) :
  has_arrived m =
  Some
    (Exact.ltb
       (distance (Pose.position (PoseStamped.pose (current_pose m)))
                 (Pose.position (PoseStamped.pose (target_pose m))))
       (1 / 2)
     && Exact.ltb
          (Rabs (orientation_to_yaw
                   (Pose.orientation (PoseStamped.pose (target_pose m)))
                 - orientation_to_yaw
                     (Pose.orientation (PoseStamped.pose (current_pose m)))))
          (1 / 10)
     && Exact.ltb
          (speed (Twist.linear (TwistStamped.twist (current_velocity m))))
          (1 / 5)
     && Exact.ltb
          (speed (Twist.angular (TwistStamped.twist (current_velocity m))))
          (1 / 20)).
Proof.
  unfold has_arrived, get_pos_error, get_velocity_abs, get_ang_vel_abs,
    get_yaw_error. cbv zeta.
  rewrite !exact_sqrt_sum_of_squares.
  destruct exact_thresholds as (-> & -> & -> & ->).
  cbn [num_ltb exact num_abs num_sub]. unfold distance, speed.
  destruct (_ && _ && _ && _) eqn:E; rewrite <- E; reflexivity.
Qed.

(** X12. In exact arithmetic [has_arrived] always returns, and returns [True]
    exactly when the target is less than 1/2 away, the yaws differ by less
    than 1/10, the speed is below 1/5 and the angular speed below 1/20. *)
Theorem has_arrived_exact (m : Mav R) :
  exists b : bool,
    has_arrived m = Some b /\
    (b = true <->
     distance (Pose.position (PoseStamped.pose (current_pose m)))
              (Pose.position (PoseStamped.pose (target_pose m))) < 1 / 2 /\
     Rabs (orientation_to_yaw
             (Pose.orientation (PoseStamped.pose (target_pose m)))
           - orientation_to_yaw
               (Pose.orientation (PoseStamped.pose (current_pose m))))
       < 1 / 10 /\
     speed (Twist.linear (TwistStamped.twist (current_velocity m))) < 1 / 5 /\
     speed (Twist.angular (TwistStamped.twist (current_velocity m)))
       < 1 / 20).
Proof.
  eexists. split; [apply has_arrived_exact_value|].
  rewrite !andb_true_iff, !exact_ltb_true. tauto.
Qed.

(** X13. Once [has_arrived] holds, and as long as [max_speed] is no smaller
    than the arrival radius 1/2 (it is 1 after [__init__]), the limiter
    passes the target pose on as it is. *)
Theorem arrived_passes_target (m : Mav R) :
  1 / 2 <= max_speed m ->
  has_arrived m = Some true ->
  distance_limited_target m = target_pose m.
Proof.
  intros Hmax Harr. rewrite has_arrived_exact_value in Harr.
  assert (Hb : forall a b : bool, Some a = Some b -> a = b)
    by (intros a b E; congruence).
  apply Hb in Harr. rewrite !andb_true_iff, !exact_ltb_true in Harr.
  destruct Harr as [[[Hd _] _] _].
  pose proof (limiter_branches m) as Hbr. cbv zeta in Hbr.
  rewrite Hbr. destruct (Rlt_dec _ _); [reflexivity|lra].
Qed.

End ExactExtras.

Lemma sample_distance_5 :
  distance (Sample.origin (F := R)) (Point.mk 3 4 0)%R = 5%R.
Proof.
  unfold distance, Sample.origin. cbn [Point.x Point.y Point.z dec exact].
  unfold Exact.of_dec. cbn [powerRZ].
  replace ((3 - 0 * 1) * (3 - 0 * 1) + (4 - 0 * 1) * (4 - 0 * 1)
           + (0 - 0 * 1) * (0 - 0 * 1))%R with (5 * 5)%R by ring.
  apply sqrt_square. lra.
Qed.

Lemma limiter_progress_witness :
  let m := Sample.parked (F := R) (Point.mk 3 4 0)%R true in
  exists p : Point.t R,
    distance_limited_target (tools := plain_tools) m =
      create_setpoint_message_pos_ori (MessageTools := plain_tools) p
        (Pose.orientation (PoseStamped.pose (target_pose m))) /\
    (distance p (Pose.position (PoseStamped.pose (target_pose m)))
     = distance (Pose.position (PoseStamped.pose (current_pose m)))
                (Pose.position (PoseStamped.pose (target_pose m)))
       - max_speed m)%R.
Proof.
  apply (limiter_progress (tools := plain_tools)
           (Sample.parked (F := R) (Point.mk 3 4 0)%R true)).
  - cbn. unfold Exact.of_dec. cbn. lra.
  - cbn [Sample.parked current_pose target_pose max_speed PoseStamped.pose
         Pose.position].
    rewrite sample_distance_5. cbn. unfold Exact.of_dec. cbn. lra.
Defined.

Lemma arrived_passes_target_witness :
  let m := Sample.parked (F := R) Sample.origin true in
  distance_limited_target (tools := plain_tools) m = target_pose m.
Proof.
  apply (arrived_passes_target (tools := plain_tools)
           (Sample.parked (F := R) Sample.origin true)).
  - cbn. unfold Exact.of_dec. cbn. lra.
  - rewrite has_arrived_exact_value.
    assert (Hz : sqrt (0 * 1 * (0 * 1) + 0 * 1 * (0 * 1) + 0 * 1 * (0 * 1))%R
                 = 0%R).
    { replace (0 * 1 * (0 * 1) + 0 * 1 * (0 * 1) + 0 * 1 * (0 * 1))%R
        with 0%R by ring. apply sqrt_0. }
    assert (Hd : distance (Sample.origin (F := R)) Sample.origin = 0%R).
    { unfold distance, Sample.origin.
      cbn [Point.x Point.y Point.z dec exact]. unfold Exact.of_dec.
      cbn [powerRZ].
      replace ((0 * 1 - 0 * 1) * (0 * 1 - 0 * 1)
               + (0 * 1 - 0 * 1) * (0 * 1 - 0 * 1)
               + (0 * 1 - 0 * 1) * (0 * 1 - 0 * 1))%R with 0%R by ring.
      apply sqrt_0. }
    cbn [Sample.parked current_pose target_pose current_velocity
         PoseStamped.pose Pose.position Pose.orientation Sample.at_rest
         TwistStamped.twist Twist.linear Twist.angular].
    rewrite Hd. unfold speed.
    cbn [Vector3.x Vector3.y Vector3.z dec exact]. unfold Exact.of_dec.
    cbn [powerRZ]. rewrite Hz.
    rewrite Rminus_diag, Rabs_R0.
    assert (Ht : forall c : R, (0 < c)%R -> Exact.ltb 0 c = true).
    { intros c Hc. unfold Exact.ltb. destruct (Rlt_dec 0 c); [reflexivity|].
      contradiction. }
    rewrite !Ht by lra. reflexivity.
Defined.
